(** * colour: ColourRGB, ColourHSL and the hex parser of [src/index.ts]

    The development has three layers.
    - [JS]: the fragment of the ECMAScript runtime the source relies on
      (values, truthiness, [typeof], Number-to-string conversion,
      [parseInt], [substr], [charAt], [join], anchored pattern matching).
      Numbers are IEEE-754 binary64 values, as in the language.
    - The program itself: [padHex], [isBadNum], [parseHexColour] and the two
      classes, as functions on field records that either complete normally
      or throw an [Error] carrying its message.
    - A store of objects, in which [new] allocates and method calls read
      their receiver, for the statements about mutation. *)

From Stdlib Require Import ZArith Bool List String Ascii Lia.
From Stdlib Require Import DecimalString HexadecimalString.
From Stdlib Require Import Floats.
From stdpp Require Import base gmap.
Import ListNotations.
Local Open Scope string_scope.
Local Open Scope Z_scope.

(** ** The ECMAScript fragment *)

Module JS.

(** Result of running code: a value, or something thrown.  [Throw msg] is
    [throw new Error(msg)]; [ThrowTypeError] is the TypeError the runtime
    raises when a symbol is converted to a string; [ThrowOther] is any
    other thrown value. *)
Inductive completion (A : Type) :=
| Normal (x : A)
| Throw (msg : string)
| ThrowTypeError
| ThrowOther.
Arguments Normal {A} x.
Arguments Throw {A} msg.
Arguments ThrowTypeError {A}.
Arguments ThrowOther {A}.

Definition bind {A B} (c : completion A) (k : A -> completion B) : completion B :=
  match c with
  | Normal x => k x
  | Throw msg => Throw msg
  | ThrowTypeError => ThrowTypeError
  | ThrowOther => ThrowOther
  end.

(** The values of the language.  A string is a sequence of 8-bit
    characters, read as the code units below 256.  An object (or
    function, when [callable]) is represented by what the program can
    observe of it: its [typeof], its truthiness, and what converting it
    to a string does, taken to be the same at every conversion. *)
Inductive value :=
| VUndefined
| VNull
| VBool (b : bool)
| VNum (n : float)
| VStr (s : string)
| VSymbol
| VBigInt (z : Z)
| VObject (callable : bool) (conv : completion string).

Notation "'try!' x ':=' c 'in' k" := (bind c (fun x => k))
  (at level 10, x pattern, c at level 100, k at level 200).

Definition typeof (v : value) : string :=
  match v with
  | VUndefined => "undefined"
  | VNull => "object"
  | VBool _ => "boolean"
  | VNum _ => "number"
  | VStr _ => "string"
  | VSymbol => "symbol"
  | VBigInt _ => "bigint"
  | VObject callable _ => if callable then "function" else "object"
  end.

Definition is_nan (x : float) : bool := negb (PrimFloat.eqb x x).

(** ToBoolean: undefined, null, false, +0, -0, NaN, the empty string and
    the bigint 0 are falsy. *)
Definition ToBoolean (v : value) : bool :=
  match v with
  | VUndefined | VNull => false
  | VBool b => b
  | VNum n => negb (PrimFloat.eqb n 0 || is_nan n)
  | VStr s => negb (String.eqb s "")
  | VSymbol => true
  | VBigInt z => negb (z =? 0)
  | VObject _ _ => true
  end.

(** [x || y] on values. *)
Definition or_else (x y : value) : value :=
  if ToBoolean x then x else y.

(** The number a value holds; only consulted behind a [typeof] test. *)
Definition num_of (v : value) : float :=
  match v with
  | VNum n => n
  | _ => nan
  end.

(** *** Number::toString(x, radix) *)

Definition digit_char (d : Z) : ascii :=
  ascii_of_N (Z.to_N (if d <? 10 then 48 + d else 87 + d)).

(** The [k] digits of [s] in base [radix], most significant first. *)
Fixpoint int_digits (radix : Z) (k : nat) (s : Z) (acc : string) : string :=
  match k with
  | O => acc
  | S k' => int_digits radix k' (s / radix) (String (digit_char (s mod radix)) acc)
  end.

Fixpoint nat_digits (fuel : nat) (radix z : Z) (acc : string) : string :=
  match fuel with
  | O => acc
  | S f =>
      let acc' := String (digit_char (z mod radix)) acc in
      if z / radix =? 0 then acc' else nat_digits f radix (z / radix) acc'
  end.

(** Representation of a non-negative integer, without leading zeros. *)
Definition Z_repr (radix z : Z) : string :=
  nat_digits (S (Z.to_nat (Z.log2 z))) radix z "".

Fixpoint zeros (n : nat) : string :=
  match n with
  | O => ""
  | S n' => String "0" (zeros n')
  end.

(** The exponent [n] with [R^(n-1) <= x < R^n], for [x = xn / D > 0]. *)
Fixpoint find_n_up (fuel : nat) (R xn pw n : Z) : Z :=
  match fuel with
  | O => n
  | S f => if xn <? pw then n else find_n_up f R xn (pw * R) (n + 1)
  end.

Fixpoint find_n_down (fuel : nat) (R D acc j : Z) : Z :=
  match fuel with
  | O => 1 - j
  | S f => if D <=? acc then 1 - j else find_n_down f R D (acc * R) (j + 1)
  end.

Definition find_n (R xn D : Z) : Z :=
  if D <=? xn then find_n_up 1100 R xn (R * D) 1
  else find_n_down 1100 R D (xn * R) 1.

(** Search for the least digit count [k] such that some [s] with
    [s * R^(n-k)] inside the rounding interval [lo/D .. hi/D] of [x = xn/D]
    exists; among several [s] the one closest to [x] wins, then the even
    one.  [incl] says whether the interval ends round to [x] (even
    significand). *)
Fixpoint shortest (fuel : nat) (R : Z) (incl : bool) (xn lo hi D n k : Z)
  : Z * Z * Z :=
  match fuel with
  | O => (n, k, 0)
  | S f =>
      let p := n - k in
      let A := if 0 <=? p then R ^ p * D else D in
      let B := if 0 <=? p then 1 else R ^ (- p) in
      let X := xn * B in
      let sf := X / A in
      let sc := if X mod A =? 0 then sf else sf + 1 in
      let inside (s : Z) :=
        let w := s * A in
        if incl then (lo * B <=? w) && (w <=? hi * B)
        else (lo * B <? w) && (w <? hi * B) in
      let pick :=
        match inside sf, inside sc with
        | true, true =>
            let df := X - sf * A in
            let dc := sc * A - X in
            Some (if df <? dc then sf
                  else if dc <? df then sc
                  else if Z.even sf then sf else sc)
        | true, false => Some sf
        | false, true => Some sc
        | false, false => None
        end in
      match pick with
      | Some s => if s =? R ^ k then (n + 1, 1, 1) else (n, k, s)
      | None => shortest f R incl xn lo hi D n (k + 1)
      end
  end.

(** [n], [k], [s] of the specification for the positive finite number
    [m * 2^e]; the interval ends are the midpoints to the neighbouring
    binary64 values, in units of [2^(e-2)]. *)
Definition nks (R : Z) (m : positive) (e : Z) : Z * Z * Z :=
  let t := e - 2 in
  let S := if 0 <=? t then 2 ^ t else 1 in
  let D := if 0 <=? t then 1 else 2 ^ (- t) in
  let below := if (Zpos m =? 2 ^ 52) && (-1074 <? e) then 1 else 2 in
  let xn := 4 * Zpos m * S in
  shortest 64 R (Z.even (Zpos m)) xn ((4 * Zpos m - below) * S)
           ((4 * Zpos m + 2) * S) D (find_n R xn D) 1.

Definition format (radix n k s : Z) : string :=
  let ds := int_digits radix (Z.to_nat k) s "" in
  if negb (radix =? 10) || ((-5 <=? n) && (n <=? 21)) then
    if k <=? n then ds ++ zeros (Z.to_nat (n - k))
    else if 0 <? n then
      substring 0 (Z.to_nat n) ds ++ "."
      ++ substring (Z.to_nat n) (Z.to_nat (k - n)) ds
    else "0." ++ zeros (Z.to_nat (- n)) ++ ds
  else
    let sign := if n <? 0 then "-" else "+" in
    let ex := Z_repr 10 (Z.abs (n - 1)) in
    if k =? 1 then ds ++ "e" ++ sign ++ ex
    else substring 0 1 ds ++ "." ++ substring 1 (Z.to_nat (k - 1)) ds
         ++ "e" ++ sign ++ ex.

Definition Number_toString (x : float) (radix : Z) : string :=
  match Prim2SF x with
  | S754_nan => "NaN"
  | S754_zero _ => "0"
  | S754_infinity sgn => if sgn then "-Infinity" else "Infinity"
  | S754_finite sgn m e =>
      let '(n, k, s) := nks radix m e in
      (if sgn then "-" else "") ++ format radix n k s
  end.

(** ToString.  A symbol cannot be converted: the conversion throws a
    TypeError. *)
Definition ToString (v : value) : completion string :=
  match v with
  | VUndefined => Normal "undefined"
  | VNull => Normal "null"
  | VBool b => Normal (if b then "true" else "false")
  | VNum n => Normal (Number_toString n 10)
  | VStr s => Normal s
  | VSymbol => ThrowTypeError
  | VBigInt z => Normal (if z <? 0 then "-" ++ Z_repr 10 (- z) else Z_repr 10 z)
  | VObject _ conv => conv
  end.

(** Array.prototype.join: undefined and null elements print as empty, the
    others are converted from left to right, and the first conversion
    that throws ends the call. *)
Definition join_elem (v : value) : completion string :=
  match v with
  | VUndefined | VNull => Normal ""
  | _ => ToString v
  end.

Fixpoint join (sep : string) (l : list value) : completion string :=
  match l with
  | [] => Normal ""
  | [v] => join_elem v
  | v :: rest =>
      try! x := join_elem v in
      try! xs := join sep rest in
      Normal (x ++ sep ++ xs)
  end.

(** *** Strings *)

Definition charAt (s : string) (i : nat) : string :=
  match String.get i s with
  | Some c => String c ""
  | None => ""
  end.

(** String.prototype.substr(start) with the length argument left out. *)
Definition substr (s : string) (start : Z) : string :=
  let size := Z.of_nat (String.length s) in
  let st := if start <? 0 then Z.max (size + start) 0 else Z.min start size in
  substring (Z.to_nat st) (Z.to_nat (size - st)) s.

(** *** parseInt(string, radix) *)

Definition code (c : ascii) : Z := Z.of_N (N_of_ascii c).

Definition is_white_space (c : ascii) : bool :=
  let n := code c in
  ((9 <=? n) && (n <=? 13)) || (n =? 32) || (n =? 160).

Fixpoint trim_start (s : string) : string :=
  match s with
  | String c rest => if is_white_space c then trim_start rest else s
  | EmptyString => s
  end.

(** Value of a character as a digit, for radices up to 36. *)
Definition digit_value (c : ascii) : option Z :=
  let n := code c in
  if (48 <=? n) && (n <=? 57) then Some (n - 48)
  else if (97 <=? n) && (n <=? 122) then Some (n - 87)
  else if (65 <=? n) && (n <=? 90) then Some (n - 55)
  else None.

(** Reads the longest prefix of radix-[R] digits; [None] when it is empty. *)
Fixpoint read_digits (R : Z) (s : string) (acc : option Z) : option Z :=
  match s with
  | EmptyString => acc
  | String c rest =>
      match digit_value c with
      | Some d =>
          if d <? R
          then read_digits R rest (Some (match acc with Some a => a * R + d | None => d end))
          else acc
      | None => acc
      end
  end.

(** The Number value of a mathematical integer (round to nearest, ties to
    even). *)
Definition Z2F (z : Z) : float :=
  SF2Prim (binary_normalize prec emax z 0 false).

Definition strip_0x (s : string) : string :=
  match s with
  | String "0" (String "x" rest) => rest
  | String "0" (String "X" rest) => rest
  | _ => s
  end.

Definition parseInt (input : string) (radix : Z) : float :=
  let s := trim_start input in
  let negative := match s with String "-" _ => true | _ => false end in
  let s := match s with
           | String "+" rest => rest
           | String "-" rest => rest
           | _ => s
           end in
  if negb (radix =? 0) && ((radix <? 2) || (36 <? radix)) then nan
  else
    let R := if radix =? 0 then 10 else radix in
    let strip := (radix =? 0) || (radix =? 16) in
    let R := if strip && negb (String.eqb (strip_0x s) s) then 16 else R in
    let s := if strip then strip_0x s else s in
    match read_digits R s None with
    | None => nan
    | Some 0 => if negative then (-0)%float else 0%float
    | Some mathInt => Z2F (if negative then - mathInt else mathInt)
    end.

(** *** Anchored patterns with capture groups

    Enough of RegExp for patterns of the shape [^ atoms (atoms)(atoms)... $]
    where each atom consumes exactly one character. *)

(** Canonicalize of the [i] flag, on the characters a byte can hold that
    map into the classes used. *)
Definition Canonicalize (c : ascii) : ascii :=
  let n := code c in
  if (97 <=? n) && (n <=? 122) then ascii_of_N (Z.to_N (n - 32)) else c.

Inductive atom :=
| Lit (c : ascii)                 (* a literal character *)
| HexClass.                       (* [a-f0-9] *)

Definition in_range (lo hi c : ascii) : bool :=
  (code lo <=? code c) && (code c <=? code hi).

(** Matching of one atom under the [i] flag: both sides are canonicalized. *)
Definition atom_matches (a : atom) (c : ascii) : bool :=
  let cc := Canonicalize c in
  match a with
  | Lit x => Ascii.eqb (Canonicalize x) cc
  | HexClass =>
      in_range (Canonicalize "a") (Canonicalize "f") cc
      || in_range (Canonicalize "0") (Canonicalize "9") cc
  end.

(** Consumes one character per atom; returns the text consumed and the rest. *)
Fixpoint match_atoms (p : list atom) (s : string) : option (string * string) :=
  match p with
  | [] => Some ("", s)
  | a :: p' =>
      match s with
      | String c rest =>
          if atom_matches a c
          then match match_atoms p' rest with
               | Some (m, r) => Some (String c m, r)
               | None => None
               end
          else None
      | EmptyString => None
      end
  end.

Fixpoint match_groups (gs : list (list atom)) (s : string)
  : option (list string * string) :=
  match gs with
  | [] => Some ([], s)
  | g :: gs' =>
      match match_atoms g s with
      | Some (m, r) =>
          match match_groups gs' r with
          | Some (ms, r') => Some (m :: ms, r')
          | None => None
          end
      | None => None
      end
  end.

(** [s.match(/^ pre (g1)(g2)... $/i)]: on success the array holding the
    whole match at index 0 and the captures after it, [None] for [null]. *)
Definition String_match (pre : list atom) (groups : list (list atom)) (s : string)
  : option (list string) :=
  match match_atoms pre s with
  | Some (_, r) =>
      match match_groups groups r with
      | Some (caps, EmptyString) => Some (s :: caps)
      | _ => None
      end
  | None => None
  end.

(** [comps[i]] inside a template literal or as [parseInt]'s argument: a
    missing element is [undefined] and prints as such. *)
Definition elem (comps : list string) (i : nat) : string :=
  nth i comps "undefined".

(** The string a value holds; only consulted behind a [typeof] test. *)
Definition str_of (v : value) : string :=
  match v with
  | VStr s => s
  | _ => ""
  end.

End JS.
Import JS.

(** ** The program *)

Definition padHex (num : float) : string :=
  substr ("00" ++ Number_toString num 16) (-2).

Definition isBadNum (num : value) (max : float) : bool :=
  negb (String.eqb (typeof num) "number")
  || (num_of num <? 0)%float
  || (max <? num_of num)%float.

(** The object literal [{ r, g, b, a }] returned by [parseHexColour]. *)
Module Hex.
Record t := mk { r : float; g : float; b : float; a : float }.
End Hex.

Definition pattern3 : list (list atom) :=
  [[HexClass]; [HexClass]; [HexClass]].

Definition pattern6 : list (list atom) :=
  [[HexClass; HexClass]; [HexClass; HexClass]; [HexClass; HexClass]].

Definition parseHexColour (hex : string) : completion Hex.t :=
  match String_match [Lit "#"] pattern3 hex with
  | Some comps3 =>
      Normal (Hex.mk (parseInt (elem comps3 1 ++ elem comps3 1) 16)
                     (parseInt (elem comps3 2 ++ elem comps3 2) 16)
                     (parseInt (elem comps3 3 ++ elem comps3 3) 16)
                     1)
  | None =>
      match String_match [Lit "#"] pattern6 hex with
      | Some comps6 =>
          Normal (Hex.mk (parseInt (elem comps6 1) 16)
                         (parseInt (elem comps6 2) 16)
                         (parseInt (elem comps6 3) 16)
                         1)
      | None => Throw ("Invalid hex colour: " ++ hex)
      end
  end.

Module ColourRGB.

(** The fields of an instance.  An instance only exists once the
    constructor has returned, hence with numbers in all four fields; a
    template literal converts a number with [Number_toString _ 10]. *)
Record t := mk { r : float; g : float; b : float; a : float }.

Definition constructor (args : list value) : completion t :=
  let arg i := nth i args VUndefined in
  try! fields :=
    (if Nat.eqb (List.length args) 1
        && String.eqb (typeof (arg 0%nat)) "string"
        && String.eqb (charAt (str_of (arg 0%nat)) 0) "#"
     then
       try! hexColour := parseHexColour (str_of (arg 0%nat)) in
       Normal (VNum (Hex.r hexColour), VNum (Hex.g hexColour),
               VNum (Hex.b hexColour), VNum (Hex.a hexColour))
     else if Nat.eqb (List.length args) 3 || Nat.eqb (List.length args) 4
     then
       Normal (arg 0%nat, arg 1%nat, arg 2%nat, or_else (arg 3%nat) (VNum 1))
     else
       try! list := join ", " args in
       Throw ("Invalid ColourRGB arguments: " ++ list)) in
  let '(this_r, this_g, this_b, this_a) := fields in
  if isBadNum this_r 255 || isBadNum this_g 255
     || isBadNum this_b 255 || isBadNum this_a 1
  then
    try! list := join ", " args in
    Throw ("Invalid ColourRGB arguments: " ++ list)
  else Normal (mk (num_of this_r) (num_of this_g) (num_of this_b) (num_of this_a)).

Definition alpha (this : t) (alpha : value) : completion t :=
  constructor [VNum (r this); VNum (g this); VNum (b this); alpha].

Definition toString (this : t) : string :=
  if (a this =? 1)%float
  then "#" ++ padHex (r this) ++ padHex (g this) ++ padHex (b this)
  else "rgba(" ++ Number_toString (r this) 10 ++ ", "
       ++ Number_toString (g this) 10 ++ ", " ++ Number_toString (b this) 10
       ++ ", " ++ Number_toString (a this) 10 ++ ")".

End ColourRGB.

Module ColourHSL.

Record t := mk { h : float; s : float; l : float; a : float }.

(** [constructor(h, s, l, a = 1)]: the default applies to a parameter that
    is missing or [undefined], and to nothing else. *)
Definition constructor (args : list value) : completion t :=
  let arg i := nth i args VUndefined in
  let h := arg 0%nat in
  let s := arg 1%nat in
  let l := arg 2%nat in
  let a := match arg 3%nat with VUndefined => VNum 1 | v => v end in
  if isBadNum h 360 || isBadNum s 100 || isBadNum l 100 || isBadNum a 1
  then
    try! list := join ", " [h; s; l; a] in
    Throw ("Invalid ColourHSL arguments: " ++ list)
  else Normal (mk (num_of h) (num_of s) (num_of l) (num_of a)).

Definition alpha (this : t) (alpha : value) : completion t :=
  constructor [VNum (h this); VNum (s this); VNum (l this); alpha].

Definition toString (this : t) : string :=
  if (a this =? 1)%float
  then "hsl(" ++ Number_toString (h this) 10 ++ ", "
       ++ Number_toString (s this) 10 ++ "%, " ++ Number_toString (l this) 10
       ++ "%)"
  else "hsla(" ++ Number_toString (h this) 10 ++ ", "
       ++ Number_toString (s this) 10 ++ "%, " ++ Number_toString (l this) 10
       ++ "%, " ++ Number_toString (a this) 10 ++ ")".

End ColourHSL.

(** ** Instances in a store

    [new] allocates a fresh object holding the fields the constructor
    computed; a method call reads the fields of its receiver.  No method
    assigns to a field.  When the constructor throws, the object under
    construction is unreachable and is not recorded. *)

Inductive object :=
| RGB (c : ColourRGB.t)
| HSL (c : ColourHSL.t).

Definition loc := positive.

Definition new_instance {A} (wrap : A -> object) (init : completion A)
    (σ : gmap loc object) : completion loc * gmap loc object :=
  match init with
  | Normal c => let l := fresh (dom σ) in (Normal l, <[l := wrap c]> σ)
  | Throw msg => (Throw msg, σ)
  | ThrowTypeError => (ThrowTypeError, σ)
  | ThrowOther => (ThrowOther, σ)
  end.

Definition new_ColourRGB (args : list value) (σ : gmap loc object) :=
  new_instance RGB (ColourRGB.constructor args) σ.

Definition new_ColourHSL (args : list value) (σ : gmap loc object) :=
  new_instance HSL (ColourHSL.constructor args) σ.

(** [this.alpha(alpha)]; [None] when [this] is not an instance in the store. *)
Definition call_alpha (this : loc) (alpha : value) (σ : gmap loc object)
  : option (completion loc * gmap loc object) :=
  match σ !! this with
  | Some (RGB c) => Some (new_instance RGB (ColourRGB.alpha c alpha) σ)
  | Some (HSL c) => Some (new_instance HSL (ColourHSL.alpha c alpha) σ)
  | None => None
  end.

(** [this.toString()]. *)
Definition call_toString (this : loc) (σ : gmap loc object) : option string :=
  match σ !! this with
  | Some (RGB c) => Some (ColourRGB.toString c)
  | Some (HSL c) => Some (ColourHSL.toString c)
  | None => None
  end.

(** The colour channels of an instance, without its alpha. *)
Definition channels (o : object) : string * (float * float * float) :=
  match o with
  | RGB c => ("rgb", (ColourRGB.r c, ColourRGB.g c, ColourRGB.b c))
  | HSL c => ("hsl", (ColourHSL.h c, ColourHSL.s c, ColourHSL.l c))
  end.

(** ** Vocabulary of the specification *)

(** The alpha an [alpha(newAlpha)] call works with: ColourRGB replaces a
    falsy argument by 1, ColourHSL an undefined one. *)
Definition effective_alpha (o : object) (newAlpha : value) : value :=
  match o with
  | RGB _ => or_else newAlpha (VNum 1)
  | HSL _ => match newAlpha with VUndefined => VNum 1 | v => v end
  end.

(** The receiver's channels and the alpha to apply pass the [isBadNum]
    rule. *)
Definition alpha_accepted (o : object) (newAlpha : value) : Prop :=
  match o with
  | RGB c =>
      isBadNum (VNum (ColourRGB.r c)) 255 = false
      /\ isBadNum (VNum (ColourRGB.g c)) 255 = false
      /\ isBadNum (VNum (ColourRGB.b c)) 255 = false
  | HSL c =>
      isBadNum (VNum (ColourHSL.h c)) 360 = false
      /\ isBadNum (VNum (ColourHSL.s c)) 100 = false
      /\ isBadNum (VNum (ColourHSL.l c)) 100 = false
  end
  /\ isBadNum (effective_alpha o newAlpha) 1 = false.

(** The object with its alpha replaced. *)
Definition with_alpha (o : object) (x : float) : object :=
  match o with
  | RGB c => RGB (ColourRGB.mk (ColourRGB.r c) (ColourRGB.g c) (ColourRGB.b c) x)
  | HSL c => HSL (ColourHSL.mk (ColourHSL.h c) (ColourHSL.s c) (ColourHSL.l c) x)
  end.

(** The two error kinds, recognised by the message of the [Error]. *)
Inductive ErrorKind :=
| InvalidColourArguments
| InvalidHexColour.

Definition error_kind (msg : string) : option ErrorKind :=
  if String.prefix "Invalid ColourRGB arguments: " msg
     || String.prefix "Invalid ColourHSL arguments: " msg
  then Some InvalidColourArguments
  else if String.prefix "Invalid hex colour: " msg then Some InvalidHexColour
  else None.

Definition fails_with {A} (k : ErrorKind) (c : completion A) : Prop :=
  exists msg, c = Throw msg /\ error_kind msg = Some k.

(** Whether the arguments can be printed into a message: converting a
    symbol, or an object whose conversion throws, does not return. *)
Definition printable (v : value) : bool :=
  match join_elem v with
  | Normal _ => true
  | _ => false
  end.

(** What [throw new Error(header + args.join(', '))] does: it throws the
    [Error] with that message, unless joining the arguments throws
    first. *)
Definition rejected {A} (header : string) (args : list value) : completion A :=
  try! list := join ", " args in Throw (header ++ list).

(** The calls the ColourRGB constructor refuses: an argument list that is
    neither one string starting with [#] nor 3 or 4 long; or 3 or 4
    arguments of which r, g or b breaks the [isBadNum] rule with bound
    255, or of which the alpha breaks it with bound 1 once a falsy fourth
    argument has been replaced by 1. *)
Definition rgb_refuses (args : list value) : Prop :=
  ((forall s, args = [VStr s] -> charAt s 0 <> "#")
   /\ List.length args <> 3%nat /\ List.length args <> 4%nat)
  \/ (exists r g b, args = [r; g; b]
        /\ isBadNum r 255 || isBadNum g 255 || isBadNum b 255 = true)
  \/ (exists r g b a, args = [r; g; b; a]
        /\ isBadNum r 255 || isBadNum g 255 || isBadNum b 255
           || isBadNum (or_else a (VNum 1)) 1 = true).

(** Numeric equality of a stored channel with an integer: it holds of -0
    and 0 alike, and never of NaN. *)
Definition holds_integer (x : float) (z : Z) : Prop :=
  (x =? Z2F z)%float = true.

(** Hex digits, in either case. *)
Definition is_hex_digit (c : ascii) : bool :=
  let n := code c in
  ((48 <=? n) && (n <=? 57)) || ((97 <=? n) && (n <=? 102))
  || ((65 <=? n) && (n <=? 70)).

Definition is_lower_hex_digit (c : ascii) : bool :=
  let n := code c in
  ((48 <=? n) && (n <=? 57)) || ((97 <=? n) && (n <=? 102)).

Definition hex_value (c : ascii) : Z :=
  let n := code c in
  if n <=? 57 then n - 48 else if 97 <=? n then n - 87 else n - 55.

Fixpoint all_chars (p : ascii -> bool) (s : string) : bool :=
  match s with
  | EmptyString => true
  | String c rest => p c && all_chars p rest
  end.

(** [#rgb] or [#rrggbb]: a [#], then exactly 3 or exactly 6 hex digits. *)
Definition hex_shape (s : string) : bool :=
  match s with
  | String h d =>
      Ascii.eqb h "#"
      && (Nat.eqb (String.length d) 3 || Nat.eqb (String.length d) 6)
      && all_chars is_hex_digit d
  | EmptyString => false
  end.

Definition lower (c : ascii) : ascii :=
  let n := code c in
  if (65 <=? n) && (n <=? 90) then ascii_of_N (Z.to_N (n + 32)) else c.

Fixpoint lower_string (s : string) : string :=
  match s with
  | EmptyString => EmptyString
  | String c rest => String (lower c) (lower_string rest)
  end.

Fixpoint double_each (s : string) : string :=
  match s with
  | EmptyString => EmptyString
  | String c rest => String c (String c (double_each rest))
  end.

(** The canonical lowercase 6-digit form of a hex colour. *)
Definition canonical (s : string) : string :=
  match s with
  | String h d =>
      String h (lower_string (if Nat.eqb (String.length d) 3 then double_each d else d))
  | EmptyString => EmptyString
  end.

(** A [#] followed by exactly six lowercase hex digits. *)
Definition is_lower_hex6 (s : string) : bool :=
  match s with
  | String h d =>
      Ascii.eqb h "#" && Nat.eqb (String.length d) 6
      && all_chars is_lower_hex_digit d
  | EmptyString => false
  end.

(** Two lowercase hex digits for a channel value, zero-padded; and its
    decimal numeral.  Both come from the standard library's printers. *)
Definition hex2 (z : Z) : string :=
  let h := HexadecimalString.NilZero.string_of_uint (N.to_hex_uint (Z.to_N z)) in
  if Nat.eqb (String.length h) 1 then String "0" h else h.

Definition decimal (z : Z) : string :=
  DecimalString.NilZero.string_of_uint (N.to_uint (Z.to_N z)).

(** Whether [sub] occurs in [s]. *)
Fixpoint contains (sub s : string) : bool :=
  String.prefix sub s
  || match s with
     | EmptyString => false
     | String _ rest => contains sub rest
     end.

(** * Properties *)

(** ** The runtime fragment on known inputs *)

Example Number_toString_decimal :
  map (fun x => Number_toString x 10)
      [0; -0; 1; 255; 0.5; 0.25; -0.75; 1e21; 1e22; 0.0000152587890625;
       9007199254740992; nan; infinity; neg_infinity]%float
  = ["0"; "0"; "1"; "255"; "0.5"; "0.25"; "-0.75"; "1e+21"; "1e+22";
     "0.0000152587890625"; "9007199254740992"; "NaN"; "Infinity"; "-Infinity"].
Proof. vm_compute. reflexivity. Qed.

Example Number_toString_hex :
  map (fun x => Number_toString x 16) [0; 10; 15; 16; 255; 256; 0.5; 255.5; nan]%float
  = ["0"; "a"; "f"; "10"; "ff"; "100"; "0.8"; "ff.8"; "NaN"].
Proof. vm_compute. reflexivity. Qed.

Example parseInt_samples :
  map (fun s => parseInt s 16) ["ff"; "FF"; "0x1f"; "  -a"; "7z"; "-0"]
  = [255; 255; 31; -10; 7; -0]%float
  /\ is_nan (parseInt "" 16) = true
  /\ is_nan (parseInt "xyz" 16) = true.
Proof. repeat apply conj; vm_compute; reflexivity. Qed.

Example join_samples :
  join ", " [VNum 256; VUndefined; VNull; VStr "x"; VBigInt (-5); VBool true]
  = Normal "256, , , x, -5, true"
  /\ join ", " [] = Normal ""
  /\ join ", " [VNum 0; VSymbol; VNum 1] = ThrowTypeError
  /\ join ", " [VObject false (Normal "[object Object]"); VNum 1]
     = Normal "[object Object], 1"
  /\ join ", " [VNum 1; VObject false ThrowOther; VSymbol] = ThrowOther.
Proof. repeat apply conj; vm_compute; reflexivity. Qed.

Example padHex_samples :
  map padHex [0; 10; 255; 256; nan]%float = ["00"; "0a"; "ff"; "00"; "aN"].
Proof. vm_compute. reflexivity. Qed.

Example String_match_samples :
  String_match [Lit "#"] pattern3 "#F0a" = Some ["#F0a"; "F"; "0"; "a"]
  /\ String_match [Lit "#"] pattern3 "#F0a1" = None
  /\ String_match [Lit "#"] pattern3 "x#F0a" = None
  /\ String_match [Lit "#"] pattern6 "#F0a1b2" = Some ["#F0a1b2"; "F0"; "a1"; "b2"]
  /\ String_match [Lit "#"] pattern6 "#F0a1bg" = None.
Proof. repeat apply conj; vm_compute; reflexivity. Qed.

(** ** Characters and patterns *)

Lemma ascii_forall (P : ascii -> bool) :
  forallb P (map ascii_of_nat (seq 0 256)) = true -> forall c, P c = true.
Proof.
  intros H c. rewrite forallb_forall in H. apply H.
  rewrite <- (ascii_nat_embedding c). apply in_map, in_seq.
  pose proof (nat_ascii_bounded c). lia.
Qed.

Lemma atom_hex (c : ascii) : atom_matches HexClass c = is_hex_digit c.
Proof.
  apply Bool.eqb_prop.
  apply (ascii_forall (fun c => Bool.eqb (atom_matches HexClass c) (is_hex_digit c))).
  vm_compute. reflexivity.
Qed.

Lemma atom_hash (c : ascii) : atom_matches (Lit "#") c = Ascii.eqb c "#".
Proof.
  apply Bool.eqb_prop.
  apply (ascii_forall (fun c => Bool.eqb (atom_matches (Lit "#") c) (Ascii.eqb c "#"))).
  vm_compute. reflexivity.
Qed.

(** Runs the matcher one atom at a time, splitting on each test. *)
Ltac step_atoms :=
  repeat (cbn [match_atoms match_groups]; rewrite ?atom_hex, ?atom_hash;
          match goal with
          | H : ?b = _ |- context [if ?b then _ else _] => rewrite H
          | |- context [if Ascii.eqb ?h ?x then _ else _] =>
              destruct (Ascii.eqb h x) eqn:?
          | |- context [if is_hex_digit ?c then _ else _] =>
              destruct (is_hex_digit c) eqn:?
          end).

Ltac close_shape :=
  try discriminate; intros _; unfold hex_shape;
  cbn [String.length all_chars];
  repeat match goal with H : _ = true |- _ => rewrite H; clear H end;
  reflexivity.

Lemma match3_hit (c1 c2 c3 : ascii) :
  is_hex_digit c1 = true -> is_hex_digit c2 = true -> is_hex_digit c3 = true ->
  let s := String "#" (String c1 (String c2 (String c3 ""))) in
  String_match [Lit "#"] pattern3 s
  = Some [s; String c1 ""; String c2 ""; String c3 ""].
Proof.
  intros H1 H2 H3 s. subst s. unfold String_match, pattern3.
  pose proof (Ascii.eqb_refl "#") as Hh. step_atoms. reflexivity.
Qed.

Lemma match6_hit (c1 c2 c3 c4 c5 c6 : ascii) :
  is_hex_digit c1 = true -> is_hex_digit c2 = true -> is_hex_digit c3 = true ->
  is_hex_digit c4 = true -> is_hex_digit c5 = true -> is_hex_digit c6 = true ->
  let s := String "#" (String c1 (String c2 (String c3
             (String c4 (String c5 (String c6 "")))))) in
  String_match [Lit "#"] pattern3 s = None
  /\ String_match [Lit "#"] pattern6 s
     = Some [s; String c1 (String c2 ""); String c3 (String c4 "");
             String c5 (String c6 "")].
Proof.
  intros H1 H2 H3 H4 H5 H6 s. subst s. unfold String_match, pattern3, pattern6.
  pose proof (Ascii.eqb_refl "#") as Hh. split; step_atoms; reflexivity.
Qed.

(** A string one of the patterns accepts has the shape [#rgb] or [#rrggbb]. *)
Lemma match3_shape (s : string) (comps : list string) :
  String_match [Lit "#"] pattern3 s = Some comps -> hex_shape s = true.
Proof.
  unfold String_match, pattern3.
  destruct s as [|h [|c1 [|c2 [|c3 [|c4 r]]]]]; step_atoms; close_shape.
Qed.

Lemma match6_shape (s : string) (comps : list string) :
  String_match [Lit "#"] pattern6 s = Some comps -> hex_shape s = true.
Proof.
  unfold String_match, pattern6.
  destruct s as [|h [|c1 [|c2 [|c3 [|c4 [|c5 [|c6 [|c7 r]]]]]]]];
    step_atoms; close_shape.
Qed.

(** The shape, spelled out character by character. *)
Lemma hex_shape_inv (s : string) :
  hex_shape s = true ->
  (exists c1 c2 c3,
      s = String "#" (String c1 (String c2 (String c3 "")))
      /\ is_hex_digit c1 = true /\ is_hex_digit c2 = true
      /\ is_hex_digit c3 = true)
  \/ (exists c1 c2 c3 c4 c5 c6,
      s = String "#" (String c1 (String c2 (String c3
            (String c4 (String c5 (String c6 ""))))))
      /\ is_hex_digit c1 = true /\ is_hex_digit c2 = true
      /\ is_hex_digit c3 = true /\ is_hex_digit c4 = true
      /\ is_hex_digit c5 = true /\ is_hex_digit c6 = true).
Proof.
  destruct s as [|h d]; [discriminate|]. unfold hex_shape.
  rewrite !andb_true_iff, orb_true_iff, !Nat.eqb_eq.
  intros [[Hh Hlen] Hall]. apply Ascii.eqb_eq in Hh. subst h.
  destruct Hlen as [Hlen | Hlen].
  - left. destruct d as [|c1 [|c2 [|c3 [|c4 r]]]]; try discriminate.
    cbn [all_chars] in Hall. rewrite !andb_true_iff in Hall.
    exists c1, c2, c3. tauto.
  - right. destruct d as [|c1 [|c2 [|c3 [|c4 [|c5 [|c6 [|c7 r]]]]]]];
      try discriminate.
    cbn [all_chars] in Hall. rewrite !andb_true_iff in Hall.
    exists c1, c2, c3, c4, c5, c6. tauto.
Qed.

(** ** Channels *)

Definition hex_chars : list ascii :=
  list_ascii_of_string "0123456789abcdefABCDEF".

Lemma hex_digit_cases (c : ascii) : is_hex_digit c = true -> In c hex_chars.
Proof.
  intros H.
  pose proof (ascii_forall
    (fun c => if is_hex_digit c then existsb (Ascii.eqb c) hex_chars else true)
    eq_refl c) as Hc.
  cbv beta in Hc. rewrite H in Hc. apply existsb_exists in Hc.
  destruct Hc as [x [Hin Heq]]. apply Ascii.eqb_eq in Heq. now subst x.
Qed.

(** A pair of hex digits is read as [16 * d1 + d2] and printed back in
    lowercase. *)
Lemma hex_pair (c1 c2 : ascii) :
  is_hex_digit c1 = true -> is_hex_digit c2 = true ->
  parseInt (String c1 (String c2 "")) 16
  = Z2F (16 * hex_value c1 + hex_value c2)
  /\ padHex (parseInt (String c1 (String c2 "")) 16)
     = String (lower c1) (String (lower c2) "")
  /\ isBadNum (VNum (parseInt (String c1 (String c2 "")) 16)) 255 = false.
Proof.
  intros H1 H2. apply hex_digit_cases in H1, H2.
  unfold hex_chars in H1, H2. cbn [list_ascii_of_string In] in H1, H2.
  repeat (destruct H1 as [<- | H1]); try contradiction;
    repeat (destruct H2 as [<- | H2]); try contradiction;
    repeat split; vm_compute; reflexivity.
Qed.

Lemma lower_hex_digit (c : ascii) :
  is_hex_digit c = true -> is_lower_hex_digit (lower c) = true.
Proof.
  intros H.
  pose proof (ascii_forall
    (fun c => if is_hex_digit c then is_lower_hex_digit (lower c) else true)
    eq_refl c) as Hc.
  cbv beta in Hc. now rewrite H in Hc.
Qed.

Lemma error_kind_hex (s : string) :
  error_kind ("Invalid hex colour: " ++ s) = Some InvalidHexColour.
Proof. destruct s; reflexivity. Qed.

Lemma error_kind_rgb (s : string) :
  error_kind ("Invalid ColourRGB arguments: " ++ s) = Some InvalidColourArguments.
Proof. destruct s; reflexivity. Qed.

Lemma error_kind_hsl (s : string) :
  error_kind ("Invalid ColourHSL arguments: " ++ s) = Some InvalidColourArguments.
Proof. destruct s; reflexivity. Qed.

(** ** The hex parser *)

Lemma parseHexColour_3 (c1 c2 c3 : ascii) :
  is_hex_digit c1 = true -> is_hex_digit c2 = true -> is_hex_digit c3 = true ->
  parseHexColour (String "#" (String c1 (String c2 (String c3 ""))))
  = Normal (Hex.mk (parseInt (String c1 (String c1 "")) 16)
                   (parseInt (String c2 (String c2 "")) 16)
                   (parseInt (String c3 (String c3 "")) 16) 1).
Proof.
  intros H1 H2 H3. unfold parseHexColour.
  rewrite (match3_hit c1 c2 c3 H1 H2 H3). reflexivity.
Qed.

Lemma parseHexColour_6 (c1 c2 c3 c4 c5 c6 : ascii) :
  is_hex_digit c1 = true -> is_hex_digit c2 = true -> is_hex_digit c3 = true ->
  is_hex_digit c4 = true -> is_hex_digit c5 = true -> is_hex_digit c6 = true ->
  parseHexColour (String "#" (String c1 (String c2 (String c3
                    (String c4 (String c5 (String c6 "")))))))
  = Normal (Hex.mk (parseInt (String c1 (String c2 "")) 16)
                   (parseInt (String c3 (String c4 "")) 16)
                   (parseInt (String c5 (String c6 "")) 16) 1).
Proof.
  intros H1 H2 H3 H4 H5 H6. unfold parseHexColour.
  destruct (match6_hit c1 c2 c3 c4 c5 c6 H1 H2 H3 H4 H5 H6) as [E3 E6].
  rewrite E3, E6. reflexivity.
Qed.

Lemma parseHexColour_invalid (s : string) :
  hex_shape s = false -> parseHexColour s = Throw ("Invalid hex colour: " ++ s).
Proof.
  intros H. unfold parseHexColour.
  destruct (String_match [Lit "#"] pattern3 s) as [comps|] eqn:E3.
  { apply match3_shape in E3. congruence. }
  destruct (String_match [Lit "#"] pattern6 s) as [comps|] eqn:E6.
  { apply match6_shape in E6. congruence. }
  reflexivity.
Qed.

(** The string path of the constructor: whatever the parser returns is
    validated and stored. *)
Lemma constructor_hex (s : string) (hex : Hex.t) :
  charAt s 0 = "#" ->
  parseHexColour s = Normal hex ->
  isBadNum (VNum (Hex.r hex)) 255 = false ->
  isBadNum (VNum (Hex.g hex)) 255 = false ->
  isBadNum (VNum (Hex.b hex)) 255 = false ->
  isBadNum (VNum (Hex.a hex)) 1 = false ->
  ColourRGB.constructor [VStr s]
  = Normal (ColourRGB.mk (Hex.r hex) (Hex.g hex) (Hex.b hex) (Hex.a hex)).
Proof.
  intros Hs Hp Hr Hg Hb Ha. unfold ColourRGB.constructor.
  cbn [List.length nth Nat.eqb typeof str_of]. rewrite Hs, Hp.
  cbn [String.eqb Ascii.eqb Bool.eqb andb bind]. rewrite Hr, Hg, Hb, Ha.
  reflexivity.
Qed.

Lemma constructor_hex_throw (s : string) (msg : string) :
  charAt s 0 = "#" ->
  parseHexColour s = Throw msg ->
  ColourRGB.constructor [VStr s] = Throw msg.
Proof.
  intros Hs Hp. unfold ColourRGB.constructor.
  cbn [List.length nth Nat.eqb typeof str_of]. rewrite Hs, Hp. reflexivity.
Qed.

(** C4: the parser tries the 3-digit pattern, then the 6-digit one.  On a
    3-digit match every digit is doubled and the pair read in base 16
    (value [16 * d + d]); on a 6-digit match every pair is read in base 16
    (value [16 * d1 + d2]); alpha is 1 in both cases. *)
Theorem parseHexColour_digits (c1 c2 c3 c4 c5 c6 : ascii)
    (H1 : is_hex_digit c1 = true) (H2 : is_hex_digit c2 = true)
    (H3 : is_hex_digit c3 = true) (H4 : is_hex_digit c4 = true)
    (H5 : is_hex_digit c5 = true) (H6 : is_hex_digit c6 = true) :
  let s3 := String "#" (String c1 (String c2 (String c3 ""))) in
  let s6 := String "#" (String c1 (String c2 (String c3
              (String c4 (String c5 (String c6 "")))))) in
  (* the 3-digit pattern decides first *)
  (forall s comps, String_match [Lit "#"] pattern3 s = Some comps ->
     parseHexColour s
     = Normal (Hex.mk (parseInt (elem comps 1 ++ elem comps 1) 16)
                      (parseInt (elem comps 2 ++ elem comps 2) 16)
                      (parseInt (elem comps 3 ++ elem comps 3) 16) 1))
  /\ (forall s comps, String_match [Lit "#"] pattern3 s = None ->
        String_match [Lit "#"] pattern6 s = Some comps ->
        parseHexColour s
        = Normal (Hex.mk (parseInt (elem comps 1) 16)
                         (parseInt (elem comps 2) 16)
                         (parseInt (elem comps 3) 16) 1))
  (* 3 digits: one digit per group, doubled *)
  /\ String_match [Lit "#"] pattern3 s3
     = Some [s3; String c1 ""; String c2 ""; String c3 ""]
  /\ parseHexColour s3
     = Normal (Hex.mk (parseInt (String c1 (String c1 "")) 16)
                      (parseInt (String c2 (String c2 "")) 16)
                      (parseInt (String c3 (String c3 "")) 16) 1)
  /\ parseHexColour s3
     = Normal (Hex.mk (Z2F (16 * hex_value c1 + hex_value c1))
                      (Z2F (16 * hex_value c2 + hex_value c2))
                      (Z2F (16 * hex_value c3 + hex_value c3)) 1)
  (* 6 digits: two digits per group, read as they are *)
  /\ String_match [Lit "#"] pattern3 s6 = None
  /\ String_match [Lit "#"] pattern6 s6
     = Some [s6; String c1 (String c2 ""); String c3 (String c4 "");
             String c5 (String c6 "")]
  /\ parseHexColour s6
     = Normal (Hex.mk (Z2F (16 * hex_value c1 + hex_value c2))
                      (Z2F (16 * hex_value c3 + hex_value c4))
                      (Z2F (16 * hex_value c5 + hex_value c6)) 1).
Proof.
  intros s3 s6.
  destruct (match6_hit c1 c2 c3 c4 c5 c6 H1 H2 H3 H4 H5 H6) as [E3 E6].
  repeat split.
  - intros s comps E. unfold parseHexColour. now rewrite E.
  - intros s comps E E'. unfold parseHexColour. now rewrite E, E'.
  - exact (match3_hit c1 c2 c3 H1 H2 H3).
  - exact (parseHexColour_3 c1 c2 c3 H1 H2 H3).
  - subst s3. rewrite (parseHexColour_3 c1 c2 c3 H1 H2 H3).
    destruct (hex_pair c1 c1 H1 H1) as [-> _].
    destruct (hex_pair c2 c2 H2 H2) as [-> _].
    destruct (hex_pair c3 c3 H3 H3) as [-> _]. reflexivity.
  - exact E3.
  - exact E6.
  - subst s6. rewrite (parseHexColour_6 c1 c2 c3 c4 c5 c6 H1 H2 H3 H4 H5 H6).
    destruct (hex_pair c1 c2 H1 H2) as [-> _].
    destruct (hex_pair c3 c4 H3 H4) as [-> _].
    destruct (hex_pair c5 c6 H5 H6) as [-> _]. reflexivity.
Qed.

Lemma parseHexColour_digits_witness :
  parseHexColour "#F00" = Normal (Hex.mk (Z2F 255) (Z2F 0) (Z2F 0) 1)
  /\ parseHexColour "#F00a1B" = Normal (Hex.mk (Z2F 240) (Z2F 10) (Z2F 27) 1).
Proof.
  destruct (parseHexColour_digits "F" "0" "0" "a" "1" "B"
              eq_refl eq_refl eq_refl eq_refl eq_refl eq_refl)
    as (_ & _ & _ & _ & E3 & _ & _ & E6).
  split; [exact E3 | exact E6].
Defined.

(** C3: every string of the shape [#rgb] or [#rrggbb] is parsed, with alpha
    1, and the instance built from it prints as the canonical lowercase
    6-digit form; [#F00] gives r=255, g=0, b=0, a=1 and prints [#ff0000];
    [#0f0] prints [#00ff00]. *)
Theorem hex_round_trip (s : string) (Hshape : hex_shape s = true) :
  (exists hex c,
      parseHexColour s = Normal hex
      /\ Hex.a hex = 1%float
      /\ ColourRGB.constructor [VStr s] = Normal c
      /\ c = ColourRGB.mk (Hex.r hex) (Hex.g hex) (Hex.b hex) (Hex.a hex)
      /\ ColourRGB.toString c = canonical s
      /\ is_lower_hex6 (ColourRGB.toString c) = true)
  /\ parseHexColour "#F00" = Normal (Hex.mk 255 0 0 1)
  /\ (try! c := ColourRGB.constructor [VStr "#F00"] in Normal (ColourRGB.toString c))
     = Normal "#ff0000"
  /\ (try! c := ColourRGB.constructor [VStr "#0f0"] in Normal (ColourRGB.toString c))
     = Normal "#00ff00".
Proof.
  split; [| repeat split; vm_compute; reflexivity].
  destruct (hex_shape_inv s Hshape)
    as [(c1 & c2 & c3 & -> & H1 & H2 & H3)
       | (c1 & c2 & c3 & c4 & c5 & c6 & -> & H1 & H2 & H3 & H4 & H5 & H6)].
  - pose proof (parseHexColour_3 c1 c2 c3 H1 H2 H3) as Hp.
    destruct (hex_pair c1 c1 H1 H1) as (_ & P1 & B1).
    destruct (hex_pair c2 c2 H2 H2) as (_ & P2 & B2).
    destruct (hex_pair c3 c3 H3 H3) as (_ & P3 & B3).
    eexists _, _. split; [exact Hp|]. split; [reflexivity|].
    split; [eapply constructor_hex;
            [reflexivity | exact Hp | exact B1 | exact B2 | exact B3 | reflexivity]|].
    split; [reflexivity|].
    assert (ColourRGB.toString
              (ColourRGB.mk (parseInt (String c1 (String c1 "")) 16)
                            (parseInt (String c2 (String c2 "")) 16)
                            (parseInt (String c3 (String c3 "")) 16) 1)
            = canonical (String "#" (String c1 (String c2 (String c3 ""))))) as E.
    { unfold ColourRGB.toString.
      cbn [ColourRGB.a ColourRGB.r ColourRGB.g ColourRGB.b].
      change (1 =? 1)%float with true. cbv iota. rewrite P1, P2, P3. reflexivity. }
    split; [exact E|]. cbn [Hex.r Hex.g Hex.b Hex.a]. rewrite E.
    unfold canonical, is_lower_hex6.
    cbn [String.length Nat.eqb double_each lower_string all_chars].
    rewrite !lower_hex_digit by assumption. reflexivity.
  - pose proof (parseHexColour_6 c1 c2 c3 c4 c5 c6 H1 H2 H3 H4 H5 H6) as Hp.
    destruct (hex_pair c1 c2 H1 H2) as (_ & P1 & B1).
    destruct (hex_pair c3 c4 H3 H4) as (_ & P2 & B2).
    destruct (hex_pair c5 c6 H5 H6) as (_ & P3 & B3).
    eexists _, _. split; [exact Hp|]. split; [reflexivity|].
    split; [eapply constructor_hex;
            [reflexivity | exact Hp | exact B1 | exact B2 | exact B3 | reflexivity]|].
    split; [reflexivity|].
    assert (ColourRGB.toString
              (ColourRGB.mk (parseInt (String c1 (String c2 "")) 16)
                            (parseInt (String c3 (String c4 "")) 16)
                            (parseInt (String c5 (String c6 "")) 16) 1)
            = canonical (String "#" (String c1 (String c2 (String c3
                           (String c4 (String c5 (String c6 "")))))))) as E.
    { unfold ColourRGB.toString.
      cbn [ColourRGB.a ColourRGB.r ColourRGB.g ColourRGB.b].
      change (1 =? 1)%float with true. cbv iota. rewrite P1, P2, P3. reflexivity. }
    split; [exact E|]. cbn [Hex.r Hex.g Hex.b Hex.a]. rewrite E.
    unfold canonical, is_lower_hex6.
    cbn [String.length Nat.eqb double_each lower_string all_chars].
    rewrite !lower_hex_digit by assumption. reflexivity.
Qed.

Lemma hex_round_trip_witness :
  exists hex c,
    parseHexColour "#aBc" = Normal hex
    /\ Hex.a hex = 1%float
    /\ ColourRGB.constructor [VStr "#aBc"] = Normal c
    /\ c = ColourRGB.mk (Hex.r hex) (Hex.g hex) (Hex.b hex) (Hex.a hex)
    /\ ColourRGB.toString c = "#aabbcc"
    /\ is_lower_hex6 (ColourRGB.toString c) = true.
Proof. exact (proj1 (hex_round_trip "#aBc" eq_refl)). Defined.

(** C5: a string that starts with [#] and has not the shape [#rgb] or
    [#rrggbb] makes the parser, and the constructor called on it, throw
    the invalid-hex-colour error; so does [#xyz]. *)
Theorem invalid_hex_rejected (s : string)
    (Hstart : charAt s 0 = "#") (Hshape : hex_shape s = false) :
  parseHexColour s = Throw ("Invalid hex colour: " ++ s)
  /\ fails_with InvalidHexColour (parseHexColour s)
  /\ ColourRGB.constructor [VStr s] = Throw ("Invalid hex colour: " ++ s)
  /\ fails_with InvalidHexColour (ColourRGB.constructor [VStr s])
  /\ fails_with InvalidHexColour (ColourRGB.constructor [VStr "#xyz"]).
Proof.
  pose proof (parseHexColour_invalid s Hshape) as Hp.
  pose proof (constructor_hex_throw s _ Hstart Hp) as Hc.
  repeat split; try assumption.
  - eexists. split; [exact Hp | apply error_kind_hex].
  - eexists. split; [exact Hc | apply error_kind_hex].
  - exists "Invalid hex colour: #xyz". split; vm_compute; reflexivity.
Qed.

Lemma invalid_hex_rejected_witness :
  ColourRGB.constructor [VStr "#ff00"] = Throw "Invalid hex colour: #ff00"
  /\ ColourRGB.constructor [VStr "#12345g"] = Throw "Invalid hex colour: #12345g".
Proof.
  split.
  - exact (proj1 (proj2 (proj2 (invalid_hex_rejected "#ff00" eq_refl eq_refl)))).
  - exact (proj1 (proj2 (proj2 (invalid_hex_rejected "#12345g" eq_refl eq_refl)))).
Defined.

(** ** Numbers *)

Lemma isBadNum_num (x max : float) :
  isBadNum (VNum x) max = ((x <? 0)%float || (max <? x)%float).
Proof. reflexivity. Qed.

Lemma isBadNum_not_number (v : value) (max : float) :
  typeof v <> "number" -> isBadNum v max = true.
Proof.
  destruct v as [| | | | | | | [] conv]; intros H; try reflexivity.
  now contradiction H.
Qed.

Lemma SFcompare_refl (x : spec_float) :
  x <> S754_nan -> SFcompare x x = Some Eq.
Proof.
  destruct x as [s | s | | s m e]; intros H; try reflexivity.
  - destruct s; reflexivity.
  - contradiction.
  - cbn. rewrite Z.compare_refl, Pos.compare_cont_refl. destruct s; reflexivity.
Qed.

(** A number below 0 or above 1 is neither zero nor NaN, hence truthy. *)
Lemma out_of_unit_truthy (x : float) :
  ((x <? 0)%float || (1 <? x)%float) = true -> ToBoolean (VNum x) = true.
Proof.
  unfold ToBoolean, is_nan. rewrite !FloatAxioms.ltb_spec, !FloatAxioms.eqb_spec.
  change (Prim2SF 0) with (S754_zero false).
  change (Prim2SF 1) with (S754_finite false 4503599627370496 (-52)).
  unfold SFltb, SFeqb. intros H.
  destruct (Prim2SF x) as [s | s | | s m e] eqn:E.
  - discriminate H.
  - rewrite SFcompare_refl by discriminate. destruct s; reflexivity.
  - discriminate H.
  - rewrite SFcompare_refl by discriminate. destruct s; reflexivity.
Qed.

(** NaN is on neither side of any bound. *)
Lemma nan_not_bad (max : float) : isBadNum (VNum nan) max = false.
Proof.
  rewrite isBadNum_num, !FloatAxioms.ltb_spec. change (Prim2SF nan) with S754_nan.
  unfold SFltb. cbn. now destruct (Prim2SF max).
Qed.

Definition bytes : list Z := map Z.of_nat (seq 0 256).

Lemma byte_cases (z : Z) : 0 <= z <= 255 -> In z bytes.
Proof.
  intros H. unfold bytes. rewrite <- (Z2Nat.id z) by lia.
  apply in_map, in_seq. lia.
Qed.

(** An integer channel value prints as two lowercase hex digits through
    [padHex], and as its decimal numeral in a template. *)
Lemma byte_prints (z : Z) :
  0 <= z <= 255 ->
  padHex (Z2F z) = hex2 z
  /\ Number_toString (Z2F z) 10 = decimal z
  /\ (String.length (hex2 z) = 2%nat /\ all_chars is_lower_hex_digit (hex2 z) = true).
Proof.
  intros H. apply byte_cases in H.
  assert (forallb (fun z =>
            String.eqb (padHex (Z2F z)) (hex2 z)
            && String.eqb (Number_toString (Z2F z) 10) (decimal z)
            && Nat.eqb (String.length (hex2 z)) 2
            && all_chars is_lower_hex_digit (hex2 z)) bytes = true) as Hall
    by (vm_compute; reflexivity).
  rewrite forallb_forall in Hall. specialize (Hall z H).
  rewrite !andb_true_iff, !String.eqb_eq, Nat.eqb_eq in Hall. tauto.
Qed.

(** ** The constructors, path by path *)

(** Once the message is being built nothing else runs: what the
    conversion of the arguments throws, or the [Error] carrying the
    message, is the outcome. *)
Lemma bind_throw {A B} (J : completion string) (g : string -> string)
    (k : A -> completion B) :
  bind (try! list := J in Throw (g list)) k = (try! list := J in Throw (g list)).
Proof. now destruct J. Qed.

Lemma message_not_normal {A} (J : completion string) (g : string -> string)
    (x : A) :
  (try! list := J in Throw (g list)) = Normal x -> False.
Proof. now destruct J. Qed.

Lemma constructor_3 (r g b : value) :
  ColourRGB.constructor [r; g; b]
  = if isBadNum r 255 || isBadNum g 255 || isBadNum b 255 || isBadNum (VNum 1) 1
    then try! list := join ", " [r; g; b] in
         Throw ("Invalid ColourRGB arguments: " ++ list)
    else Normal (ColourRGB.mk (num_of r) (num_of g) (num_of b) 1).
Proof. reflexivity. Qed.

Lemma constructor_4 (r g b a : value) :
  ColourRGB.constructor [r; g; b; a]
  = if isBadNum r 255 || isBadNum g 255 || isBadNum b 255
       || isBadNum (or_else a (VNum 1)) 1
    then try! list := join ", " [r; g; b; a] in
         Throw ("Invalid ColourRGB arguments: " ++ list)
    else Normal (ColourRGB.mk (num_of r) (num_of g) (num_of b)
                              (num_of (or_else a (VNum 1)))).
Proof. reflexivity. Qed.

Lemma constructor_other_shape (args : list value) :
  (forall s, args = [VStr s] -> charAt s 0 <> "#") ->
  List.length args <> 3%nat -> List.length args <> 4%nat ->
  ColourRGB.constructor args
  = (try! list := join ", " args in
     Throw ("Invalid ColourRGB arguments: " ++ list)).
Proof.
  intros Hstr H3 H4. unfold ColourRGB.constructor.
  assert (Nat.eqb (List.length args) 1
          && String.eqb (typeof (nth 0 args VUndefined)) "string"
          && String.eqb (charAt (str_of (nth 0 args VUndefined)) 0) "#" = false)
    as ->.
  { destruct args as [|v [|v2 rest]]; try reflexivity.
    destruct v as [| | | | s | | | [] conv]; try reflexivity.
    cbn [List.length nth Nat.eqb typeof str_of].
    specialize (Hstr s eq_refl). apply String.eqb_neq in Hstr. now rewrite Hstr. }
  apply Nat.eqb_neq in H3, H4. rewrite H3, H4. cbn [orb].
  apply bind_throw.
Qed.

Lemma hsl_constructor_4 (h s l : value) (a : float) :
  ColourHSL.constructor [h; s; l; VNum a]
  = if isBadNum h 360 || isBadNum s 100 || isBadNum l 100 || isBadNum (VNum a) 1
    then try! list := join ", " [h; s; l; VNum a] in
         Throw ("Invalid ColourHSL arguments: " ++ list)
    else Normal (ColourHSL.mk (num_of h) (num_of s) (num_of l) a).
Proof. reflexivity. Qed.

Lemma hsl_constructor_3 (h s l : value) :
  ColourHSL.constructor [h; s; l]
  = if isBadNum h 360 || isBadNum s 100 || isBadNum l 100 || isBadNum (VNum 1) 1
    then try! list := join ", " [h; s; l; VNum 1] in
         Throw ("Invalid ColourHSL arguments: " ++ list)
    else Normal (ColourHSL.mk (num_of h) (num_of s) (num_of l) 1).
Proof. reflexivity. Qed.

(** ** Alpha handling of ColourRGB *)

(** C2: in the numeric constructor a missing or falsy alpha becomes 1; an
    explicit alpha of 0 is replaced by 1, for all channel values. *)
Theorem falsy_alpha_defaults_to_1 (r g b : value)
    (Hr : isBadNum r 255 = false) (Hg : isBadNum g 255 = false)
    (Hb : isBadNum b 255 = false) :
  ColourRGB.constructor [r; g; b]
  = Normal (ColourRGB.mk (num_of r) (num_of g) (num_of b) 1)
  /\ ColourRGB.constructor [r; g; b; VNum 0]
     = Normal (ColourRGB.mk (num_of r) (num_of g) (num_of b) 1)
  /\ (forall a, ToBoolean a = false ->
        ColourRGB.constructor [r; g; b; a]
        = Normal (ColourRGB.mk (num_of r) (num_of g) (num_of b) 1))
  /\ Forall (fun a => ToBoolean a = false)
            [VUndefined; VNull; VBool false; VNum 0; VNum (-0); VNum nan; VStr ""]
  /\ (forall r' g' b' c,
        ColourRGB.constructor [r'; g'; b'; VNum 0] = Normal c ->
        ColourRGB.a c = 1%float).
Proof.
  assert (forall a, ToBoolean a = false ->
            ColourRGB.constructor [r; g; b; a]
            = Normal (ColourRGB.mk (num_of r) (num_of g) (num_of b) 1)) as Hfalsy.
  { intros a Ha. rewrite constructor_4. unfold or_else. rewrite Ha, Hr, Hg, Hb.
    reflexivity. }
  repeat split.
  - rewrite constructor_3, Hr, Hg, Hb. reflexivity.
  - apply Hfalsy. reflexivity.
  - exact Hfalsy.
  - repeat constructor.
  - intros r' g' b' c. rewrite constructor_4.
    change (or_else (VNum 0) (VNum 1)) with (VNum 1).
    destruct (_ || _); [now intros H%message_not_normal|]. now intros [= <-].
Qed.

Lemma falsy_alpha_defaults_to_1_witness :
  ColourRGB.constructor [VNum 10; VNum 20; VNum 30; VNum 0]
  = Normal (ColourRGB.mk 10 20 30 1).
Proof.
  exact (proj1 (proj2 (falsy_alpha_defaults_to_1 (VNum 10) (VNum 20) (VNum 30)
                         eq_refl eq_refl eq_refl))).
Defined.

(** For integer channels and a truthy alpha in range, building a colour
    and re-applying its alpha prints the hex form when the alpha is 1 and
    the rgba form otherwise. *)
Lemma alpha_round_trip_truthy (zr zg zb : Z) (a : float) :
  0 <= zr <= 255 -> 0 <= zg <= 255 -> 0 <= zb <= 255 ->
  isBadNum (VNum a) 1 = false -> ToBoolean (VNum a) = true ->
  exists c c',
    ColourRGB.constructor [VNum (Z2F zr); VNum (Z2F zg); VNum (Z2F zb); VNum a]
    = Normal c
    /\ ColourRGB.alpha c (VNum a) = Normal c'
    /\ ColourRGB.toString c'
       = if (a =? 1)%float
         then "#" ++ hex2 zr ++ hex2 zg ++ hex2 zb
         else "rgba(" ++ decimal zr ++ ", " ++ decimal zg ++ ", " ++ decimal zb
              ++ ", " ++ Number_toString a 10 ++ ")".
Proof.
  intros Hr Hg Hb Ha Ht.
  assert (forall z, 0 <= z <= 255 -> isBadNum (VNum (Z2F z)) 255 = false) as Hbyte.
  { intros z Hz. apply byte_cases in Hz.
    assert (forallb (fun z => negb (isBadNum (VNum (Z2F z)) 255)) bytes = true)
      as Hall by (vm_compute; reflexivity).
    rewrite forallb_forall in Hall. specialize (Hall z Hz).
    now apply negb_true_iff in Hall. }
  assert (ColourRGB.constructor [VNum (Z2F zr); VNum (Z2F zg); VNum (Z2F zb); VNum a]
          = Normal (ColourRGB.mk (Z2F zr) (Z2F zg) (Z2F zb) a)) as E.
  { rewrite constructor_4. unfold or_else. rewrite Ht, !Hbyte, Ha by assumption.
    reflexivity. }
  exists (ColourRGB.mk (Z2F zr) (Z2F zg) (Z2F zb) a),
         (ColourRGB.mk (Z2F zr) (Z2F zg) (Z2F zb) a).
  split; [exact E|]. split; [exact E|].
  unfold ColourRGB.toString, ToString.
  cbn [ColourRGB.a ColourRGB.r ColourRGB.g ColourRGB.b].
  destruct (byte_prints zr Hr) as (-> & -> & _).
  destruct (byte_prints zg Hg) as (-> & -> & _).
  destruct (byte_prints zb Hb) as (-> & -> & _). reflexivity.
Qed.

(** C1, where the code departs from it: with an explicit alpha of 0, which
    lies in [0,1] and is not 1, [RGBColour(r,g,b,0).alpha(0).toString()] is
    the hex form and not [rgba(r, g, b, 0)].  ColourHSL keeps the 0. *)
Theorem zero_alpha_prints_hex :
  exists c c',
    ColourRGB.constructor [VNum 255; VNum 0; VNum 0; VNum 0] = Normal c
    /\ ColourRGB.alpha c (VNum 0) = Normal c'
    /\ ColourRGB.a c' = 1%float
    /\ ColourRGB.toString c' = "#ff0000"
    /\ ColourRGB.toString c' <> "rgba(255, 0, 0, 0)"
    /\ ColourRGB.toString (ColourRGB.mk 255 0 0 0) = "rgba(255, 0, 0, 0)"
    /\ (try! h := ColourHSL.constructor [VNum 0; VNum 100; VNum 50; VNum 0] in
        try! h' := ColourHSL.alpha h (VNum 0) in
        Normal (ColourHSL.toString h'))
       = Normal "hsla(0, 100%, 50%, 0)".
Proof.
  exists (ColourRGB.mk 255 0 0 1), (ColourRGB.mk 255 0 0 1).
  repeat split; try (vm_compute; reflexivity).
  vm_compute. discriminate.
Qed.

(** ** Argument validation of ColourRGB *)

Lemma join_printable (sep : string) (l : list value) :
  forallb printable l = true -> exists list, join sep l = Normal list.
Proof.
  induction l as [|v l IH]; [now exists ""|].
  cbn [forallb]. rewrite andb_true_iff. intros [Hv Hl].
  destruct (IH Hl) as [xs Hxs]. unfold printable in Hv.
  destruct (join_elem v) as [x | | |] eqn:Ev; try discriminate Hv.
  destruct l as [|w l].
  - exists x. exact Ev.
  - exists (x ++ sep ++ xs).
    change (join sep (v :: w :: l))
      with (try! x := join_elem v in
            try! xs := join sep (w :: l) in Normal (x ++ sep ++ xs)).
    now rewrite Ev, Hxs.
Qed.

Lemma join_symbol (sep : string) (pre post : list value) :
  forallb printable pre = true ->
  join sep (pre ++ VSymbol :: post) = ThrowTypeError.
Proof.
  induction pre as [|v pre IH].
  - intros _. now destruct post.
  - cbn [forallb]. rewrite andb_true_iff. intros [Hv Hpre].
    specialize (IH Hpre). unfold printable in Hv.
    destruct (join_elem v) as [x | | |] eqn:Ev; try discriminate Hv.
    change ((v :: pre) ++ VSymbol :: post)%list
      with (v :: (pre ++ VSymbol :: post))%list.
    destruct (pre ++ VSymbol :: post)%list as [|w rest] eqn:E.
    + now destruct pre.
    + change (join sep (v :: w :: rest))
        with (try! x := join_elem v in
              try! xs := join sep (w :: rest) in Normal (x ++ sep ++ xs)).
      now rewrite Ev, IH.
Qed.

Lemma printable_nth (args : list value) (i : nat) :
  forallb printable args = true -> printable (nth i args VUndefined) = true.
Proof.
  intros H. destruct (Nat.lt_ge_cases i (List.length args)) as [Hi | Hi].
  - rewrite forallb_forall in H. apply H, nth_In, Hi.
  - now rewrite nth_overflow.
Qed.

(** What a refusal is, for either class. *)
Lemma rejected_outcome {A} (header : string) (args : list value) :
  (forall c : A, rejected header args <> Normal c)
  /\ (forallb printable args = true ->
        exists list, join ", " args = Normal list
                     /\ @rejected A header args = Throw (header ++ list))
  /\ (forall pre post, args = (pre ++ VSymbol :: post)%list ->
        forallb printable pre = true ->
        @rejected A header args = ThrowTypeError).
Proof.
  unfold rejected. repeat apply conj.
  - intros c H. now apply message_not_normal in H.
  - intros Hp. destruct (join_printable ", " args Hp) as [list E].
    exists list. now rewrite E.
  - intros pre post -> Hp. now rewrite join_symbol.
Qed.

Lemma rgb_refuses_rejected (args : list value) :
  rgb_refuses args ->
  ColourRGB.constructor args = rejected "Invalid ColourRGB arguments: " args.
Proof.
  intros [(Hstr & H3 & H4) | [(r & g & b & -> & Hbad) | (r & g & b & a & -> & Hbad)]].
  - now apply constructor_other_shape.
  - rewrite constructor_3, Hbad. reflexivity.
  - rewrite constructor_4, Hbad. reflexivity.
Qed.

(** C6, as the code has it: a call that is neither one string starting
    with [#] nor 3 or 4 arguments long, and a call of 3 or 4 arguments in
    which r, g or b breaks the [isBadNum] rule with bound 255 or in which
    the alpha breaks it with bound 1 once a falsy fourth argument has been
    replaced by 1, gives no instance: it throws the invalid-arguments
    error when all arguments can be printed into the message, and
    otherwise what printing throws, a TypeError at a symbol.  Every fourth
    argument that is a number or is truthy, and breaks the rule, is
    refused in this way.  [RGBColour(256,0,0)] throws the
    invalid-arguments error. *)
Theorem invalid_arguments_rejected (args : list value) :
  (rgb_refuses args ->
     ColourRGB.constructor args = rejected "Invalid ColourRGB arguments: " args
     /\ (forall c, ColourRGB.constructor args <> Normal c)
     /\ (forallb printable args = true ->
           fails_with InvalidColourArguments (ColourRGB.constructor args))
     /\ (forall pre post, args = (pre ++ VSymbol :: post)%list ->
           forallb printable pre = true ->
           ColourRGB.constructor args = ThrowTypeError))
  /\ (forall r g b a, args = [r; g; b; a] ->
        typeof a = "number" \/ ToBoolean a = true ->
        isBadNum a 1 = true ->
        rgb_refuses args)
  /\ (forall v, printable v = false ->
        v = VSymbol \/ exists callable conv, v = VObject callable conv)
  /\ fails_with InvalidColourArguments
       (ColourRGB.constructor [VNum 256; VNum 0; VNum 0])
  /\ ColourRGB.constructor [VSymbol] = ThrowTypeError
  /\ ColourRGB.constructor [VSymbol; VNum 0; VNum 0] = ThrowTypeError
  /\ ColourRGB.constructor [VNum 0; VNum 0; VNum 0; VSymbol] = ThrowTypeError.
Proof.
  repeat apply conj; try reflexivity.
  - intros Href. apply rgb_refuses_rejected in Href.
    destruct (rejected_outcome (A := ColourRGB.t)
                "Invalid ColourRGB arguments: " args) as (Hno & Hmsg & Hsym).
    rewrite Href. repeat apply conj.
    + reflexivity.
    + exact Hno.
    + intros Hp. destruct (Hmsg Hp) as (list & _ & ->).
      eexists. split; [reflexivity | apply error_kind_rgb].
    + exact Hsym.
  - intros r g b a -> Ha Hbad. right. right. exists r, g, b, a.
    split; [reflexivity|].
    assert (ToBoolean a = true) as Ht.
    { destruct Ha as [Hnum | Ht]; [| exact Ht].
      destruct a as [| | | x | | | | [] conv]; try discriminate Hnum.
      apply out_of_unit_truthy. now rewrite <- isBadNum_num. }
    unfold or_else. rewrite Ht, Hbad. now rewrite !orb_true_r.
  - intros v Hv. destruct v; try discriminate Hv; [now left | right; eauto].
  - exists "Invalid ColourRGB arguments: 256, 0, 0". split; vm_compute; reflexivity.
Qed.

Lemma invalid_arguments_rejected_witness :
  fails_with InvalidColourArguments (ColourRGB.constructor [VStr "red"])
  /\ rgb_refuses [VNum 0; VNum 0; VNum 0; VNum 2].
Proof.
  split.
  - apply (proj1 (invalid_arguments_rejected [VStr "red"])).
    + left. repeat split; try discriminate. intros s [= <-]. discriminate.
    + reflexivity.
  - apply (proj1 (proj2 (invalid_arguments_rejected [VNum 0; VNum 0; VNum 0; VNum 2]))
             (VNum 0) (VNum 0) (VNum 0) (VNum 2) eq_refl).
    + left. reflexivity.
    + reflexivity.
Defined.

(** C6 as worded fails: [null] as fourth argument is not of type number,
    so it breaks the [isBadNum] rule, and the call is not one of 3-4
    numeric arguments; yet the constructor returns an instance of alpha 1. *)
Lemma null_alpha_accepted :
  isBadNum VNull 1 = true
  /\ ColourRGB.constructor [VNum 0; VNum 0; VNum 0; VNull]
     = Normal (ColourRGB.mk 0 0 0 1)
  /\ ~ (forall r g b a,
          isBadNum r 255 || isBadNum g 255 || isBadNum b 255 || isBadNum a 1 = true ->
          fails_with InvalidColourArguments (ColourRGB.constructor [r; g; b; a])).
Proof.
  repeat split; try reflexivity.
  intros H. destruct (H (VNum 0) (VNum 0) (VNum 0) VNull eq_refl) as (msg & E & _).
  vm_compute in E. discriminate E.
Qed.

(** ** Printing *)

(** Two numbers that compare equal are the same number, or are zeros of
    either sign. *)
Lemma eqb_cases (x y : float) :
  (x =? y)%float = true ->
  x = y
  \/ ((x = 0%float \/ x = (-0)%float) /\ (y = 0%float \/ y = (-0)%float)).
Proof.
  rewrite FloatAxioms.eqb_spec. unfold SFeqb.
  pose proof (eq_sym (SF2Prim_Prim2SF x)) as Hx.
  pose proof (eq_sym (SF2Prim_Prim2SF y)) as Hy.
  revert Hx Hy. generalize (Prim2SF x) (Prim2SF y). intros sx sy -> ->.
  destruct sx as [[] | [] | | [] mx ex], sy as [[] | [] | | [] my ey];
    cbn [SFcompare]; try discriminate; intros H;
    first
      [ left; reflexivity
      | right; split; auto; fail
      | destruct (ex ?= ey) eqn:Ee; try discriminate H;
        destruct (Pos.compare_cont Eq mx my) eqn:Em; try discriminate H;
        apply Z.compare_eq in Ee; apply Pos.compare_eq in Em; subst;
        left; reflexivity ].
Qed.

(** A channel that holds an integer of [0,255] is that integer as a
    number, or is -0. *)
Lemma holds_byte (x : float) (z : Z) :
  0 <= z <= 255 -> holds_integer x z ->
  x = Z2F z \/ (z = 0 /\ x = (-0)%float).
Proof.
  intros Hz H. apply byte_cases in Hz.
  destruct (eqb_cases x (Z2F z) H) as [-> | [Hx Hy]]; [now left|].
  assert (forallb (fun z => if (Z2F z =? 0)%float then z =? 0 else true) bytes
          = true) as Hall by (vm_compute; reflexivity).
  rewrite forallb_forall in Hall. specialize (Hall z Hz). cbv beta in Hall.
  assert ((Z2F z =? 0)%float = true) as E by (destruct Hy as [-> | ->]; reflexivity).
  rewrite E in Hall. apply Z.eqb_eq in Hall. subst z.
  destruct Hx as [-> | ->]; [now left | now right].
Qed.

Lemma channel_prints (x : float) (z : Z) :
  0 <= z <= 255 -> holds_integer x z ->
  padHex x = hex2 z
  /\ Number_toString x 10 = decimal z
  /\ (String.length (hex2 z) = 2%nat /\ all_chars is_lower_hex_digit (hex2 z) = true).
Proof.
  intros Hz H. destruct (holds_byte x z Hz H) as [-> | [-> ->]].
  - now apply byte_prints.
  - repeat apply conj; vm_compute; reflexivity.
Qed.

(** C7, as the code has it: for every instance whose alpha is not 1,
    [toString()] returns [rgba(r, g, b, a)] with the channels and the
    alpha as the language prints numbers in decimal; for an instance
    whose alpha is 1 and whose r, g, b hold integers of [0,255] (a -0
    counting as 0), it returns [#] and six lowercase hex digits, two per
    channel, zero-padded, and such channels print in the rgba form as
    their decimal numerals; [RGBColour(255,0,0,0.5)] prints
    [rgba(255, 0, 0, 0.5)]. *)
Theorem rgb_toString_forms (c : ColourRGB.t) :
  ((ColourRGB.a c =? 1)%float = false ->
     ColourRGB.toString c
     = "rgba(" ++ Number_toString (ColourRGB.r c) 10 ++ ", "
       ++ Number_toString (ColourRGB.g c) 10 ++ ", "
       ++ Number_toString (ColourRGB.b c) 10 ++ ", "
       ++ Number_toString (ColourRGB.a c) 10 ++ ")")
  /\ (forall zr zg zb,
        0 <= zr <= 255 -> 0 <= zg <= 255 -> 0 <= zb <= 255 ->
        holds_integer (ColourRGB.r c) zr -> holds_integer (ColourRGB.g c) zg ->
        holds_integer (ColourRGB.b c) zb ->
        ((ColourRGB.a c =? 1)%float = true ->
           ColourRGB.toString c = "#" ++ hex2 zr ++ hex2 zg ++ hex2 zb
           /\ is_lower_hex6 (ColourRGB.toString c) = true)
        /\ Number_toString (ColourRGB.r c) 10 = decimal zr
        /\ Number_toString (ColourRGB.g c) 10 = decimal zg
        /\ Number_toString (ColourRGB.b c) 10 = decimal zb)
  /\ (try! c := ColourRGB.constructor [VNum 255; VNum 0; VNum 0; VNum 0.5] in
      Normal (ColourRGB.toString c))
     = Normal "rgba(255, 0, 0, 0.5)".
Proof.
  split; [| split].
  - intros Hne. unfold ColourRGB.toString. now rewrite Hne.
  - intros zr zg zb Rr Rg Rb Hr Hg Hb.
    destruct (channel_prints _ zr Rr Hr) as (Pr & Dr & Lr & Ar).
    destruct (channel_prints _ zg Rg Hg) as (Pg & Dg & Lg & Ag).
    destruct (channel_prints _ zb Rb Hb) as (Pb & Db & Lb & Ab).
    split; [| now rewrite Dr, Dg, Db].
    intros Ha. unfold ColourRGB.toString. rewrite Ha, Pr, Pg, Pb.
    split; [reflexivity|].
    destruct (hex2 zr) as [|r1 [|r2 [|? ?]]]; try discriminate Lr.
    destruct (hex2 zg) as [|g1 [|g2 [|? ?]]]; try discriminate Lg.
    destruct (hex2 zb) as [|b1 [|b2 [|? ?]]]; try discriminate Lb.
    cbn [all_chars] in Ar, Ag, Ab. rewrite !andb_true_iff in Ar, Ag, Ab.
    destruct Ar as (Ar1 & Ar2 & _), Ag as (Ag1 & Ag2 & _), Ab as (Ab1 & Ab2 & _).
    unfold is_lower_hex6. cbv [String.append]. cbn [String.length all_chars].
    rewrite Ar1, Ar2, Ag1, Ag2, Ab1, Ab2. reflexivity.
  - vm_compute. reflexivity.
Qed.

Lemma rgb_toString_forms_witness :
  ColourRGB.toString (ColourRGB.mk 254.5 (-0) 15 0.25) = "rgba(254.5, 0, 15, 0.25)"
  /\ ColourRGB.toString (ColourRGB.mk 10 (-0) 255 1) = "#0a00ff".
Proof.
  split.
  - exact (proj1 (rgb_toString_forms (ColourRGB.mk 254.5 (-0) 15 0.25)) eq_refl).
  - apply (proj1 (proj2 (rgb_toString_forms (ColourRGB.mk 10 (-0) 255 1)))
             10 0 255 ltac:(lia) ltac:(lia) ltac:(lia) eq_refl eq_refl eq_refl).
    reflexivity.
Defined.

(** C7 as worded fails: the constructor accepts NaN and fractions as
    channels, and such an instance of alpha 1 does not print as six hex
    digits. *)
Lemma non_integer_channel_prints_no_hex :
  (exists c,
      ColourRGB.constructor [VNum nan; VNum 0; VNum 0] = Normal c
      /\ (ColourRGB.a c =? 1)%float = true
      /\ ColourRGB.toString c = "#aN0000"
      /\ is_lower_hex6 (ColourRGB.toString c) = false)
  /\ (exists c,
      ColourRGB.constructor [VNum 0.5; VNum 0; VNum 0] = Normal c
      /\ (ColourRGB.a c =? 1)%float = true
      /\ ColourRGB.toString c = "#.80000"
      /\ is_lower_hex6 (ColourRGB.toString c) = false).
Proof.
  split.
  - exists (ColourRGB.mk nan 0 0 1). repeat split; vm_compute; reflexivity.
  - exists (ColourRGB.mk 0.5 0 0 1). repeat split; vm_compute; reflexivity.
Qed.

(** ** ColourHSL *)

(** C8: the alpha default of ColourHSL applies to a missing (undefined)
    argument only, so an explicit alpha, 0 included, is stored as given;
    [toString()] returns [hsl(h, s%, l%)] when alpha is 1 and
    [hsla(h, s%, l%, a)] otherwise; [HSLColour(0,100,50)] prints
    [hsl(0, 100%, 50%)] and [HSLColour(0,100,50,0)] prints
    [hsla(0, 100%, 50%, 0)]. *)
Theorem hsl_alpha_and_printing (h s l a : float)
    (Hh : isBadNum (VNum h) 360 = false) (Hs : isBadNum (VNum s) 100 = false)
    (Hl : isBadNum (VNum l) 100 = false) (Ha : isBadNum (VNum a) 1 = false) :
  ColourHSL.constructor [VNum h; VNum s; VNum l; VNum a]
  = Normal (ColourHSL.mk h s l a)
  /\ ColourHSL.constructor [VNum h; VNum s; VNum l; VNum 0]
     = Normal (ColourHSL.mk h s l 0)
  /\ ColourHSL.constructor [VNum h; VNum s; VNum l]
     = Normal (ColourHSL.mk h s l 1)
  /\ ColourHSL.constructor [VNum h; VNum s; VNum l; VUndefined]
     = Normal (ColourHSL.mk h s l 1)
  /\ ColourHSL.toString (ColourHSL.mk h s l a)
     = (if (a =? 1)%float
        then "hsl(" ++ Number_toString h 10 ++ ", " ++ Number_toString s 10
             ++ "%, " ++ Number_toString l 10 ++ "%)"
        else "hsla(" ++ Number_toString h 10 ++ ", " ++ Number_toString s 10
             ++ "%, " ++ Number_toString l 10 ++ "%, " ++ Number_toString a 10
             ++ ")")
  /\ (try! c := ColourHSL.constructor [VNum 0; VNum 100; VNum 50] in
      Normal (ColourHSL.toString c))
     = Normal "hsl(0, 100%, 50%)"
  /\ (try! c := ColourHSL.constructor [VNum 0; VNum 100; VNum 50; VNum 0] in
      Normal (ColourHSL.toString c))
     = Normal "hsla(0, 100%, 50%, 0)".
Proof.
  repeat apply conj.
  - rewrite hsl_constructor_4, Hh, Hs, Hl, Ha. reflexivity.
  - rewrite hsl_constructor_4, Hh, Hs, Hl. reflexivity.
  - rewrite hsl_constructor_3, Hh, Hs, Hl. reflexivity.
  - change (ColourHSL.constructor [VNum h; VNum s; VNum l; VUndefined])
      with (ColourHSL.constructor [VNum h; VNum s; VNum l]).
    rewrite hsl_constructor_3, Hh, Hs, Hl. reflexivity.
  - reflexivity.
  - vm_compute. reflexivity.
  - vm_compute. reflexivity.
Qed.

Lemma hsl_alpha_and_printing_witness :
  ColourHSL.constructor [VNum 120; VNum 50; VNum 25; VNum 0.5]
  = Normal (ColourHSL.mk 120 50 25 0.5)
  /\ ColourHSL.constructor [VNum 120; VNum 50; VNum 25; VNum 0]
     = Normal (ColourHSL.mk 120 50 25 0)
  /\ ColourHSL.toString (ColourHSL.mk 120 50 25 0.5) = "hsla(120, 50%, 25%, 0.5)".
Proof.
  destruct (hsl_alpha_and_printing 120 50 25 0.5 eq_refl eq_refl eq_refl eq_refl)
    as (E1 & E2 & _ & _ & E5 & _).
  split; [exact E1 | split; [exact E2 | exact E5]].
Defined.

(** ** NaN *)

(** C10, as the code has it: NaN passes [isBadNum] under every bound, so
    [RGBColour(NaN,0,0)] and [HSLColour(NaN,0,0)] are built without an
    error.  The hsl form, and the rgba form of a non-1 alpha, contain
    [NaN]; the hex form of [RGBColour(NaN,0,0)] is [#aN0000]. *)
Theorem nan_channels_accepted :
  typeof (VNum nan) = "number"
  /\ (forall max, isBadNum (VNum nan) max = false)
  /\ ColourRGB.constructor [VNum nan; VNum 0; VNum 0]
     = Normal (ColourRGB.mk nan 0 0 1)
  /\ ColourHSL.constructor [VNum nan; VNum 0; VNum 0]
     = Normal (ColourHSL.mk nan 0 0 1)
  /\ ColourHSL.constructor [VNum 0; VNum 0; VNum 0; VNum nan]
     = Normal (ColourHSL.mk 0 0 0 nan)
  /\ ColourHSL.toString (ColourHSL.mk nan 0 0 1) = "hsl(NaN, 0%, 0%)"
  /\ contains "NaN" (ColourHSL.toString (ColourHSL.mk nan 0 0 1)) = true
  /\ (try! c := ColourRGB.constructor [VNum nan; VNum 0; VNum 0; VNum 0.5] in
      Normal (ColourRGB.toString c))
     = Normal "rgba(NaN, 0, 0, 0.5)"
  /\ contains "NaN" "rgba(NaN, 0, 0, 0.5)" = true
  /\ ColourRGB.toString (ColourRGB.mk nan 0 0 1) = "#aN0000"
  /\ contains "NaN" (ColourRGB.toString (ColourRGB.mk nan 0 0 1)) = false.
Proof.
  split; [reflexivity|]. split; [exact nan_not_bad|].
  repeat split; vm_compute; reflexivity.
Qed.

(** C10 as worded fails: the output of [RGBColour(NaN,0,0).toString()]
    does not contain [NaN]. *)
Lemma nan_rgb_prints_no_NaN :
  exists c,
    ColourRGB.constructor [VNum nan; VNum 0; VNum 0] = Normal c
    /\ ColourRGB.toString c = "#aN0000"
    /\ contains "NaN" (ColourRGB.toString c) = false.
Proof.
  exists (ColourRGB.mk nan 0 0 1). repeat split; vm_compute; reflexivity.
Qed.

(** ** What [alpha] keeps *)

Lemma rgb_alpha_channels (c c' : ColourRGB.t) (v : value) :
  ColourRGB.alpha c v = Normal c' ->
  ColourRGB.r c' = ColourRGB.r c /\ ColourRGB.g c' = ColourRGB.g c
  /\ ColourRGB.b c' = ColourRGB.b c.
Proof.
  unfold ColourRGB.alpha. rewrite constructor_4.
  destruct (_ || _); [now intros H%message_not_normal|]. intros [= <-]. now cbn.
Qed.

Lemma hsl_alpha_channels (c c' : ColourHSL.t) (v : value) :
  ColourHSL.alpha c v = Normal c' ->
  ColourHSL.h c' = ColourHSL.h c /\ ColourHSL.s c' = ColourHSL.s c
  /\ ColourHSL.l c' = ColourHSL.l c.
Proof.
  unfold ColourHSL.alpha, ColourHSL.constructor. cbn [nth].
  destruct (_ || _); [now intros H%message_not_normal|]. intros [= <-]. now cbn.
Qed.

(** * Further properties of the code *)

(** ** What an instance holds *)

Lemma not_bad_is_num (v : value) (max : float) :
  isBadNum v max = false -> v = VNum (num_of v).
Proof.
  destruct v as [| | | | | | | [] conv]; intros H; try discriminate H.
  reflexivity.
Qed.

Lemma or_else_truthy (v : value) : ToBoolean (or_else v (VNum 1)) = true.
Proof. unfold or_else. destruct (ToBoolean v) eqn:E; [exact E | reflexivity]. Qed.

Lemma parseHexColour_alpha (s : string) (hex : Hex.t) :
  parseHexColour s = Normal hex -> Hex.a hex = 1%float.
Proof.
  unfold parseHexColour.
  destruct (String_match [Lit "#"] pattern3 s); [now intros [= <-]|].
  destruct (String_match [Lit "#"] pattern6 s); [now intros [= <-]|].
  discriminate.
Qed.

(** Splits the four-way validation test into its parts. *)
Ltac split_bad H H1 H2 H3 H4 :=
  apply orb_false_elim in H; destruct H as [H H4];
  apply orb_false_elim in H; destruct H as [H H3];
  apply orb_false_elim in H; destruct H as [H1 H2].

(** Whatever path the constructor takes, the fields it stores are four
    values that passed [isBadNum], the alpha being truthy. *)
Lemma rgb_constructor_inv (args : list value) (c : ColourRGB.t) :
  ColourRGB.constructor args = Normal c ->
  exists r g b a,
    isBadNum r 255 = false /\ isBadNum g 255 = false
    /\ isBadNum b 255 = false /\ isBadNum a 1 = false
    /\ ToBoolean a = true
    /\ c = ColourRGB.mk (num_of r) (num_of g) (num_of b) (num_of a).
Proof.
  unfold ColourRGB.constructor.
  destruct (_ && _ && _).
  - destruct (parseHexColour _) as [hex | msg | |] eqn:Hp; try discriminate.
    cbn [bind].
    destruct (_ || _) eqn:Hbad; [now intros H%message_not_normal|]. intros [= <-].
    split_bad Hbad Hr Hg Hb Ha.
    eexists _, _, _, _.
    repeat apply conj; [exact Hr | exact Hg | exact Hb | exact Ha | | reflexivity].
    now rewrite (parseHexColour_alpha _ _ Hp).
  - destruct (_ || _);
      [| rewrite bind_throw; now intros H%message_not_normal].
    cbn [bind].
    destruct (_ || _) eqn:Hbad; [now intros H%message_not_normal|]. intros [= <-].
    split_bad Hbad Hr Hg Hb Ha.
    eexists _, _, _, _.
    repeat apply conj; [exact Hr | exact Hg | exact Hb | exact Ha | | reflexivity].
    apply or_else_truthy.
Qed.

(** X1: every instance the ColourRGB constructor returns, by the string
    path or the numeric one, holds channels that pass [isBadNum] with
    bound 255 and an alpha that passes it with bound 1. *)
Theorem rgb_instance_in_range (args : list value) (c : ColourRGB.t)
    (Hnew : ColourRGB.constructor args = Normal c) :
  isBadNum (VNum (ColourRGB.r c)) 255 = false
  /\ isBadNum (VNum (ColourRGB.g c)) 255 = false
  /\ isBadNum (VNum (ColourRGB.b c)) 255 = false
  /\ isBadNum (VNum (ColourRGB.a c)) 1 = false.
Proof.
  destruct (rgb_constructor_inv args c Hnew)
    as (r & g & b & a & Hr & Hg & Hb & Ha & _ & ->).
  cbn [ColourRGB.r ColourRGB.g ColourRGB.b ColourRGB.a].
  rewrite <- (not_bad_is_num r 255 Hr), <- (not_bad_is_num g 255 Hg),
          <- (not_bad_is_num b 255 Hb), <- (not_bad_is_num a 1 Ha).
  auto.
Qed.

Lemma rgb_instance_in_range_witness :
  isBadNum (VNum 255) 255 = false /\ isBadNum (VNum 0) 255 = false
  /\ isBadNum (VNum 0) 255 = false /\ isBadNum (VNum 0.5) 1 = false.
Proof.
  exact (rgb_instance_in_range [VNum 255; VNum 0; VNum 0; VNum 0.5]
           (ColourRGB.mk 255 0 0 0.5) eq_refl).
Defined.

(** X2: no ColourRGB instance has a falsy alpha: whatever the arguments,
    the alpha of a constructed instance is neither 0, nor -0, nor NaN. *)
Theorem rgb_alpha_never_falsy (args : list value) (c : ColourRGB.t)
    (Hnew : ColourRGB.constructor args = Normal c) :
  ToBoolean (VNum (ColourRGB.a c)) = true
  /\ (ColourRGB.a c =? 0)%float = false
  /\ is_nan (ColourRGB.a c) = false.
Proof.
  destruct (rgb_constructor_inv args c Hnew)
    as (r & g & b & a & _ & _ & _ & Ha & Ht & ->).
  cbn [ColourRGB.a]. rewrite (not_bad_is_num a 1 Ha) in Ht.
  split; [exact Ht|]. cbn [ToBoolean] in Ht.
  apply negb_true_iff, orb_false_elim in Ht. exact Ht.
Qed.

Lemma rgb_alpha_never_falsy_witness :
  ToBoolean (VNum 1) = true /\ (1 =? 0)%float = false /\ is_nan 1 = false.
Proof.
  exact (rgb_alpha_never_falsy [VNum 10; VNum 20; VNum 30; VNum 0]
           (ColourRGB.mk 10 20 30 1) eq_refl).
Defined.

Lemma hsl_constructor_inv (args : list value) (c : ColourHSL.t) :
  ColourHSL.constructor args = Normal c ->
  exists h s l a,
    isBadNum h 360 = false /\ isBadNum s 100 = false
    /\ isBadNum l 100 = false /\ isBadNum a 1 = false
    /\ c = ColourHSL.mk (num_of h) (num_of s) (num_of l) (num_of a).
Proof.
  unfold ColourHSL.constructor.
  destruct (_ || _) eqn:Hbad; [now intros H%message_not_normal|]. intros [= <-].
  split_bad Hbad Hh Hs Hl Ha.
  eexists _, _, _, _.
  repeat apply conj; [exact Hh | exact Hs | exact Hl | exact Ha | reflexivity].
Qed.

(** X3: every instance the ColourHSL constructor returns holds a hue that
    passes [isBadNum] with bound 360, a saturation and a lightness that
    pass it with bound 100, and an alpha that passes it with bound 1. *)
Theorem hsl_instance_in_range (args : list value) (c : ColourHSL.t)
    (Hnew : ColourHSL.constructor args = Normal c) :
  isBadNum (VNum (ColourHSL.h c)) 360 = false
  /\ isBadNum (VNum (ColourHSL.s c)) 100 = false
  /\ isBadNum (VNum (ColourHSL.l c)) 100 = false
  /\ isBadNum (VNum (ColourHSL.a c)) 1 = false.
Proof.
  destruct (hsl_constructor_inv args c Hnew)
    as (h & s & l & a & Hh & Hs & Hl & Ha & ->).
  cbn [ColourHSL.h ColourHSL.s ColourHSL.l ColourHSL.a].
  rewrite <- (not_bad_is_num h 360 Hh), <- (not_bad_is_num s 100 Hs),
          <- (not_bad_is_num l 100 Hl), <- (not_bad_is_num a 1 Ha).
  auto.
Qed.

Lemma hsl_instance_in_range_witness :
  isBadNum (VNum 120) 360 = false /\ isBadNum (VNum 50) 100 = false
  /\ isBadNum (VNum 25) 100 = false /\ isBadNum (VNum 0) 1 = false.
Proof.
  exact (hsl_instance_in_range [VNum 120; VNum 50; VNum 25; VNum 0]
           (ColourHSL.mk 120 50 25 0) eq_refl).
Defined.

(** ** [alpha] on constructed instances *)

(** X4: on an instance the ColourRGB constructor returned, [alpha] can
    only fail because of its argument.  It returns exactly when the
    argument, once a falsy one is replaced by 1, passes the alpha rule,
    and then with the receiver's r, g, b and that alpha.  Otherwise it
    gives no instance: it throws the invalid-arguments error when the
    argument can be printed into the message, and a TypeError when the
    argument is a symbol. *)
Theorem rgb_alpha_total_on_valid (args : list value) (c : ColourRGB.t)
    (newAlpha : value) (Hnew : ColourRGB.constructor args = Normal c) :
  (isBadNum (or_else newAlpha (VNum 1)) 1 = true ->
     (forall c', ColourRGB.alpha c newAlpha <> Normal c')
     /\ (printable newAlpha = true ->
           fails_with InvalidColourArguments (ColourRGB.alpha c newAlpha))
     /\ (newAlpha = VSymbol -> ColourRGB.alpha c newAlpha = ThrowTypeError))
  /\ (isBadNum (or_else newAlpha (VNum 1)) 1 = false ->
        ColourRGB.alpha c newAlpha
        = Normal (ColourRGB.mk (ColourRGB.r c) (ColourRGB.g c) (ColourRGB.b c)
                               (num_of (or_else newAlpha (VNum 1))))).
Proof.
  destruct (rgb_constructor_inv args c Hnew)
    as (r & g & b & a & Hr & Hg & Hb & _ & _ & ->).
  unfold ColourRGB.alpha. cbn [ColourRGB.r ColourRGB.g ColourRGB.b].
  rewrite constructor_4.
  rewrite <- (not_bad_is_num r 255 Hr), <- (not_bad_is_num g 255 Hg),
          <- (not_bad_is_num b 255 Hb), Hr, Hg, Hb.
  cbn [orb]. split; intros ->; [| reflexivity].
  rewrite (not_bad_is_num r 255 Hr), (not_bad_is_num g 255 Hg),
          (not_bad_is_num b 255 Hb).
  set (list := [VNum (num_of r); VNum (num_of g); VNum (num_of b); newAlpha]).
  destruct (rejected_outcome (A := ColourRGB.t)
              "Invalid ColourRGB arguments: " list) as (Hno & Hmsg & Hsym).
  fold (@rejected ColourRGB.t "Invalid ColourRGB arguments: " list).
  repeat apply conj.
  - exact Hno.
  - intros Hp. destruct Hmsg as (m & _ & ->).
    { subst list. cbn [forallb]. now rewrite Hp. }
    eexists. split; [reflexivity | apply error_kind_rgb].
  - intros ->.
    exact (Hsym [VNum (num_of r); VNum (num_of g); VNum (num_of b)] [] eq_refl eq_refl).
Qed.

Lemma rgb_alpha_total_on_valid_witness :
  fails_with InvalidColourArguments
    (ColourRGB.alpha (ColourRGB.mk 255 0 0 1) (VNum 2))
  /\ ColourRGB.alpha (ColourRGB.mk 255 0 0 1) VSymbol = ThrowTypeError
  /\ ColourRGB.alpha (ColourRGB.mk 255 0 0 1) (VNum 0.5)
     = Normal (ColourRGB.mk 255 0 0 0.5).
Proof.
  split; [| split].
  - exact (proj1 (proj2 (proj1 (rgb_alpha_total_on_valid [VStr "#f00"]
                    (ColourRGB.mk 255 0 0 1) (VNum 2) eq_refl) eq_refl)) eq_refl).
  - exact (proj2 (proj2 (proj1 (rgb_alpha_total_on_valid [VStr "#f00"]
                    (ColourRGB.mk 255 0 0 1) VSymbol eq_refl) eq_refl)) eq_refl).
  - exact (proj2 (rgb_alpha_total_on_valid [VStr "#f00"] (ColourRGB.mk 255 0 0 1)
                    (VNum 0.5) eq_refl) eq_refl).
Defined.

(** X5: on an instance the ColourHSL constructor returned, [alpha] returns
    exactly when its argument (1 when it is undefined) passes the alpha
    rule, and then with the receiver's h, s, l and that alpha.  Otherwise
    it gives no instance: it throws the invalid-arguments error when the
    argument can be printed into the message, and a TypeError when the
    argument is a symbol. *)
Theorem hsl_alpha_total_on_valid (args : list value) (c : ColourHSL.t)
    (newAlpha : value) (Hnew : ColourHSL.constructor args = Normal c) :
  let a' := match newAlpha with VUndefined => VNum 1 | v => v end in
  (isBadNum a' 1 = true ->
     (forall c', ColourHSL.alpha c newAlpha <> Normal c')
     /\ (printable newAlpha = true ->
           fails_with InvalidColourArguments (ColourHSL.alpha c newAlpha))
     /\ (newAlpha = VSymbol -> ColourHSL.alpha c newAlpha = ThrowTypeError))
  /\ (isBadNum a' 1 = false ->
        ColourHSL.alpha c newAlpha
        = Normal (ColourHSL.mk (ColourHSL.h c) (ColourHSL.s c) (ColourHSL.l c)
                               (num_of a'))).
Proof.
  destruct (hsl_constructor_inv args c Hnew)
    as (h & s & l & a & Hh & Hs & Hl & _ & ->).
  intros a'. subst a'. unfold ColourHSL.alpha, ColourHSL.constructor.
  cbn [ColourHSL.h ColourHSL.s ColourHSL.l nth].
  rewrite <- (not_bad_is_num h 360 Hh), <- (not_bad_is_num s 100 Hs),
          <- (not_bad_is_num l 100 Hl), Hh, Hs, Hl.
  cbn [orb].
  rewrite (not_bad_is_num h 360 Hh), (not_bad_is_num s 100 Hs),
          (not_bad_is_num l 100 Hl).
  destruct newAlpha as [| | | | | | | callable conv]; cbv beta iota;
    (split; intros E; rewrite E; [| reflexivity]);
    match goal with
    | |- context [join ", " ?l] =>
        destruct (rejected_outcome (A := ColourHSL.t)
                    "Invalid ColourHSL arguments: " l) as (Hno & Hmsg & Hsym);
        fold (@rejected ColourHSL.t "Invalid ColourHSL arguments: " l)
    end;
    (repeat apply conj;
     [ exact Hno
     | intros Hp; destruct Hmsg as (m & _ & ->);
       [ cbn [forallb]; now rewrite ?Hp
       | eexists; split; [reflexivity | apply error_kind_hsl] ]
     | intros Hs'; try discriminate Hs';
       exact (Hsym [VNum (num_of h); VNum (num_of s); VNum (num_of l)] []
                eq_refl eq_refl) ]).
Qed.

Lemma hsl_alpha_total_on_valid_witness :
  fails_with InvalidColourArguments
    (ColourHSL.alpha (ColourHSL.mk 120 50 25 1) VNull)
  /\ ColourHSL.alpha (ColourHSL.mk 120 50 25 1) VSymbol = ThrowTypeError
  /\ ColourHSL.alpha (ColourHSL.mk 120 50 25 1) (VNum 0)
     = Normal (ColourHSL.mk 120 50 25 0).
Proof.
  split; [| split].
  - exact (proj1 (proj2 (proj1 (hsl_alpha_total_on_valid [VNum 120; VNum 50; VNum 25]
                    (ColourHSL.mk 120 50 25 1) VNull eq_refl) eq_refl)) eq_refl).
  - exact (proj2 (proj2 (proj1 (hsl_alpha_total_on_valid [VNum 120; VNum 50; VNum 25]
                    (ColourHSL.mk 120 50 25 1) VSymbol eq_refl) eq_refl)) eq_refl).
  - exact (proj2 (hsl_alpha_total_on_valid [VNum 120; VNum 50; VNum 25]
                    (ColourHSL.mk 120 50 25 1) (VNum 0) eq_refl) eq_refl).
Defined.

(** X6: chained [alpha] calls keep only the last one: when [c.alpha(x)]
    returns, [c.alpha(x).alpha(y)] behaves as [c.alpha(y)], result or
    error message alike, in both classes. *)
Theorem alpha_last_wins (x y : value) :
  (forall c c1, ColourRGB.alpha c x = Normal c1 ->
     ColourRGB.alpha c1 y = ColourRGB.alpha c y)
  /\ (forall c c1, ColourHSL.alpha c x = Normal c1 ->
        ColourHSL.alpha c1 y = ColourHSL.alpha c y).
Proof.
  split; intros c c1 H.
  - destruct (rgb_alpha_channels c c1 x H) as (E1 & E2 & E3).
    unfold ColourRGB.alpha. now rewrite E1, E2, E3.
  - destruct (hsl_alpha_channels c c1 x H) as (E1 & E2 & E3).
    unfold ColourHSL.alpha. now rewrite E1, E2, E3.
Qed.

Lemma alpha_last_wins_witness :
  ColourRGB.alpha (ColourRGB.mk 255 0 0 0.5) (VNum 0.25)
  = ColourRGB.alpha (ColourRGB.mk 255 0 0 1) (VNum 0.25)
  /\ ColourHSL.alpha (ColourHSL.mk 120 50 25 0) (VNum 2)
     = ColourHSL.alpha (ColourHSL.mk 120 50 25 1) (VNum 2).
Proof.
  split.
  - exact (proj1 (alpha_last_wins (VNum 0.5) (VNum 0.25))
             (ColourRGB.mk 255 0 0 1) (ColourRGB.mk 255 0 0 0.5) eq_refl).
  - exact (proj2 (alpha_last_wins (VNum 0) (VNum 2))
             (ColourHSL.mk 120 50 25 1) (ColourHSL.mk 120 50 25 0) eq_refl).
Defined.

(** X7: re-applying its own alpha to a constructed instance returns an
    equal instance, in both classes. *)
Theorem alpha_of_own_alpha (args : list value) :
  (forall c, ColourRGB.constructor args = Normal c ->
     ColourRGB.alpha c (VNum (ColourRGB.a c)) = Normal c)
  /\ (forall c, ColourHSL.constructor args = Normal c ->
        ColourHSL.alpha c (VNum (ColourHSL.a c)) = Normal c).
Proof.
  split; intros c Hnew.
  - destruct (rgb_constructor_inv args c Hnew)
      as (r & g & b & a & Hr & Hg & Hb & Ha & Ht & ->).
    unfold ColourRGB.alpha.
    cbn [ColourRGB.r ColourRGB.g ColourRGB.b ColourRGB.a].
    rewrite constructor_4.
    rewrite <- (not_bad_is_num r 255 Hr), <- (not_bad_is_num g 255 Hg),
            <- (not_bad_is_num b 255 Hb), <- (not_bad_is_num a 1 Ha).
    unfold or_else. now rewrite Ht, Hr, Hg, Hb, Ha.
  - destruct (hsl_constructor_inv args c Hnew)
      as (h & s & l & a & Hh & Hs & Hl & Ha & ->).
    unfold ColourHSL.alpha.
    cbn [ColourHSL.h ColourHSL.s ColourHSL.l ColourHSL.a].
    rewrite hsl_constructor_4.
    rewrite <- (not_bad_is_num h 360 Hh), <- (not_bad_is_num s 100 Hs),
            <- (not_bad_is_num l 100 Hl), <- (not_bad_is_num a 1 Ha).
    now rewrite Hh, Hs, Hl, Ha.
Qed.

Lemma alpha_of_own_alpha_witness :
  ColourRGB.alpha (ColourRGB.mk 255 0 0 0.5) (VNum 0.5)
  = Normal (ColourRGB.mk 255 0 0 0.5)
  /\ ColourHSL.alpha (ColourHSL.mk 120 50 25 0) (VNum 0)
     = Normal (ColourHSL.mk 120 50 25 0).
Proof.
  split.
  - exact (proj1 (alpha_of_own_alpha [VNum 255; VNum 0; VNum 0; VNum 0.5])
             (ColourRGB.mk 255 0 0 0.5) eq_refl).
  - exact (proj2 (alpha_of_own_alpha [VNum 120; VNum 50; VNum 25; VNum 0])
             (ColourHSL.mk 120 50 25 0) eq_refl).
Defined.

(** ** The hex form *)

Lemma length_append (s t : string) :
  String.length (s ++ t) = (String.length s + String.length t)%nat.
Proof.
  induction s as [|c s IH]; [reflexivity|].
  change (String c s ++ t) with (String c (s ++ t)).
  cbn [String.length]. now rewrite IH.
Qed.

Lemma length_substring (s : string) :
  forall n m, (n + m <= String.length s)%nat ->
              String.length (substring n m s) = m.
Proof.
  induction s as [|c s IH]; intros n m H; cbn in H.
  - assert (n = 0%nat) by lia. assert (m = 0%nat) by lia. now subst.
  - destruct n as [|n]; destruct m as [|m]; cbn; try reflexivity.
    + rewrite IH; [reflexivity | lia].
    + apply IH. lia.
    + apply IH. lia.
Qed.

Lemma length_last_two (s : string) :
  (2 <= String.length s)%nat -> String.length (substr s (-2)) = 2%nat.
Proof.
  intros H. unfold substr. change (-2 <? 0) with true. cbv iota.
  rewrite Z.max_l by lia. rewrite length_substring; lia.
Qed.

(** X8: [padHex] returns exactly two characters for every number, so the
    output of [toString()] for an instance of alpha 1 is always [#]
    followed by six characters, whatever the channels hold. *)
Theorem hex_form_length (c : ColourRGB.t) (x : float)
    (Hopaque : (ColourRGB.a c =? 1)%float = true) :
  String.length (padHex x) = 2%nat
  /\ String.length (ColourRGB.toString c) = 7%nat
  /\ charAt (ColourRGB.toString c) 0 = "#".
Proof.
  assert (forall y, String.length (padHex y) = 2%nat) as Hpad.
  { intros y. unfold padHex. apply length_last_two.
    rewrite length_append. cbn. lia. }
  split; [apply Hpad|]. unfold ColourRGB.toString. rewrite Hopaque.
  split; [| reflexivity].
  rewrite !length_append, !Hpad. reflexivity.
Qed.

Lemma hex_form_length_witness :
  String.length (padHex 4096) = 2%nat
  /\ String.length (ColourRGB.toString (ColourRGB.mk 0.5 nan 255 1)) = 7%nat
  /\ charAt (ColourRGB.toString (ColourRGB.mk 0.5 nan 255 1)) 0 = "#".
Proof.
  exact (hex_form_length (ColourRGB.mk 0.5 nan 255 1) 4096 eq_refl).
Defined.

(** The two digits [padHex] prints for an integer channel are read back by
    [parseInt] as the same number. *)
Lemma byte_hex_parses (z : Z) :
  0 <= z <= 255 ->
  exists x y,
    hex2 z = String x (String y "")
    /\ is_hex_digit x = true /\ is_hex_digit y = true
    /\ parseInt (String x (String y "")) 16 = Z2F z
    /\ isBadNum (VNum (Z2F z)) 255 = false.
Proof.
  intros H. apply byte_cases in H.
  assert (forallb (fun z =>
            match hex2 z with
            | String x (String y "") =>
                is_hex_digit x && is_hex_digit y
                && PrimFloat.Leibniz.eqb (parseInt (hex2 z) 16) (Z2F z)
                && negb (isBadNum (VNum (Z2F z)) 255)
            | _ => false
            end) bytes = true) as Hall by (vm_compute; reflexivity).
  rewrite forallb_forall in Hall. specialize (Hall z H).
  destruct (hex2 z) as [|x [|y [|? ?]]]; try discriminate Hall.
  rewrite !andb_true_iff, negb_true_iff, FloatAxioms.Leibniz.eqb_spec in Hall.
  exists x, y. tauto.
Qed.

(** The hex form of an instance with integer channels and alpha 1: six
    hex digits that [parseInt] reads back, pair by pair, as the channels. *)
Lemma hex_form_digits (c : ColourRGB.t) (zr zg zb : Z) :
  ColourRGB.r c = Z2F zr -> ColourRGB.g c = Z2F zg -> ColourRGB.b c = Z2F zb ->
  0 <= zr <= 255 -> 0 <= zg <= 255 -> 0 <= zb <= 255 ->
  ColourRGB.a c = 1%float ->
  exists x1 y1 x2 y2 x3 y3,
    ColourRGB.toString c
    = String "#" (String x1 (String y1 (String x2 (String y2
                    (String x3 (String y3 ""))))))
    /\ (is_hex_digit x1 = true /\ is_hex_digit y1 = true
        /\ is_hex_digit x2 = true /\ is_hex_digit y2 = true
        /\ is_hex_digit x3 = true /\ is_hex_digit y3 = true)
    /\ parseInt (String x1 (String y1 "")) 16 = ColourRGB.r c
    /\ parseInt (String x2 (String y2 "")) 16 = ColourRGB.g c
    /\ parseInt (String x3 (String y3 "")) 16 = ColourRGB.b c.
Proof.
  intros Hr Hg Hb Rr Rg Rb Ha.
  destruct (byte_prints zr Rr) as (Pr & _).
  destruct (byte_prints zg Rg) as (Pg & _).
  destruct (byte_prints zb Rb) as (Pb & _).
  destruct (byte_hex_parses zr Rr) as (x1 & y1 & E1 & X1 & Y1 & I1 & _).
  destruct (byte_hex_parses zg Rg) as (x2 & y2 & E2 & X2 & Y2 & I2 & _).
  destruct (byte_hex_parses zb Rb) as (x3 & y3 & E3 & X3 & Y3 & I3 & _).
  exists x1, y1, x2, y2, x3, y3.
  split; [| split; [tauto | now rewrite Hr, Hg, Hb]].
  unfold ColourRGB.toString. rewrite Ha, Hr, Hg, Hb.
  change (1 =? 1)%float with true. cbv iota.
  rewrite Pr, Pg, Pb, E1, E2, E3. reflexivity.
Qed.

Lemma reconstruct_bytes (zr zg zb : Z) :
  0 <= zr <= 255 -> 0 <= zg <= 255 -> 0 <= zb <= 255 ->
  ColourRGB.constructor
    [VStr (ColourRGB.toString (ColourRGB.mk (Z2F zr) (Z2F zg) (Z2F zb) 1))]
  = Normal (ColourRGB.mk (Z2F zr) (Z2F zg) (Z2F zb) 1).
Proof.
  intros Rr Rg Rb.
  destruct (hex_form_digits (ColourRGB.mk (Z2F zr) (Z2F zg) (Z2F zb) 1) zr zg zb
              eq_refl eq_refl eq_refl Rr Rg Rb eq_refl)
    as (x1 & y1 & x2 & y2 & x3 & y3 & -> & (X1 & Y1 & X2 & Y2 & X3 & Y3)
        & I1 & I2 & I3).
  cbn [ColourRGB.r ColourRGB.g ColourRGB.b] in I1, I2, I3.
  pose proof (parseHexColour_6 x1 y1 x2 y2 x3 y3 X1 Y1 X2 Y2 X3 Y3) as Hp.
  rewrite I1, I2, I3 in Hp.
  destruct (byte_hex_parses zr Rr) as (_ & _ & _ & _ & _ & _ & Br).
  destruct (byte_hex_parses zg Rg) as (_ & _ & _ & _ & _ & _ & Bg).
  destruct (byte_hex_parses zb Rb) as (_ & _ & _ & _ & _ & _ & Bb).
  apply (constructor_hex _ (Hex.mk (Z2F zr) (Z2F zg) (Z2F zb) 1));
    [reflexivity | exact Hp | exact Br | exact Bg | exact Bb | reflexivity].
Qed.

Lemma hex_form_of (c : ColourRGB.t) (zr zg zb : Z) :
  0 <= zr <= 255 -> 0 <= zg <= 255 -> 0 <= zb <= 255 ->
  holds_integer (ColourRGB.r c) zr -> holds_integer (ColourRGB.g c) zg ->
  holds_integer (ColourRGB.b c) zb ->
  (ColourRGB.a c =? 1)%float = true ->
  ColourRGB.toString c = "#" ++ hex2 zr ++ hex2 zg ++ hex2 zb.
Proof.
  intros Rr Rg Rb Hr Hg Hb Ha.
  destruct (channel_prints _ zr Rr Hr) as (Pr & _).
  destruct (channel_prints _ zg Rg Hg) as (Pg & _).
  destruct (channel_prints _ zb Rb Hb) as (Pb & _).
  unfold ColourRGB.toString. now rewrite Ha, Pr, Pg, Pb.
Qed.

Lemma byte_holds (z : Z) : 0 <= z <= 255 -> holds_integer (Z2F z) z.
Proof.
  intros H. apply byte_cases in H. unfold holds_integer.
  assert (forallb (fun z => (Z2F z =? Z2F z)%float) bytes = true) as Hall
    by (vm_compute; reflexivity).
  rewrite forallb_forall in Hall. now apply Hall.
Qed.

(** The two hex digits of an integer channel spell that integer. *)
Lemma hex2_value (z : Z) :
  0 <= z <= 255 ->
  exists x y, hex2 z = String x (String y "")
              /\ 16 * hex_value x + hex_value y = z.
Proof.
  intros H. apply byte_cases in H.
  assert (forallb (fun z =>
            match hex2 z with
            | String x (String y "") => 16 * hex_value x + hex_value y =? z
            | _ => false
            end) bytes = true) as Hall by (vm_compute; reflexivity).
  rewrite forallb_forall in Hall. specialize (Hall z H).
  destruct (hex2 z) as [|x [|y [|? ?]]]; try discriminate Hall.
  apply Z.eqb_eq in Hall. eauto.
Qed.

(** X9: the hex form round-trips: for an instance with alpha 1 whose r,
    g, b hold integers of [0,255], constructing a colour from the string
    [toString()] returns gives an instance holding the same integers,
    which prints the same string; it is an equal instance unless a
    channel is -0, which comes back as 0. *)
Theorem hex_output_reconstructs (c : ColourRGB.t) (zr zg zb : Z)
    (Rr : 0 <= zr <= 255) (Rg : 0 <= zg <= 255) (Rb : 0 <= zb <= 255)
    (Hr : holds_integer (ColourRGB.r c) zr)
    (Hg : holds_integer (ColourRGB.g c) zg)
    (Hb : holds_integer (ColourRGB.b c) zb)
    (Ha : (ColourRGB.a c =? 1)%float = true) :
  exists c',
    ColourRGB.constructor [VStr (ColourRGB.toString c)] = Normal c'
    /\ holds_integer (ColourRGB.r c') zr /\ holds_integer (ColourRGB.g c') zg
    /\ holds_integer (ColourRGB.b c') zb /\ ColourRGB.a c' = 1%float
    /\ ColourRGB.toString c' = ColourRGB.toString c
    /\ (ColourRGB.r c <> (-0)%float -> ColourRGB.g c <> (-0)%float ->
        ColourRGB.b c <> (-0)%float -> c' = c).
Proof.
  set (c0 := ColourRGB.mk (Z2F zr) (Z2F zg) (Z2F zb) 1).
  assert (ColourRGB.toString c0 = ColourRGB.toString c) as Esame.
  { rewrite (hex_form_of c zr zg zb) by assumption.
    apply (hex_form_of c0 zr zg zb); try assumption;
      try (now apply byte_holds); reflexivity. }
  exists c0. rewrite <- Esame.
  split; [exact (reconstruct_bytes zr zg zb Rr Rg Rb)|].
  repeat apply conj; try (now apply byte_holds); try reflexivity.
  intros Nr Ng Nb.
  destruct (holds_byte _ zr Rr Hr) as [Er | [_ Er]]; [| now contradiction Nr].
  destruct (holds_byte _ zg Rg Hg) as [Eg | [_ Eg]]; [| now contradiction Ng].
  destruct (holds_byte _ zb Rb Hb) as [Eb | [_ Eb]]; [| now contradiction Nb].
  destruct (eqb_cases _ _ Ha) as [Ea | [_ [E1 | E1]]]; try discriminate E1.
  destruct c as [r g b a]. cbn [ColourRGB.r ColourRGB.g ColourRGB.b ColourRGB.a] in *.
  subst. reflexivity.
Qed.

Lemma hex_output_reconstructs_witness :
  exists c',
    ColourRGB.constructor [VStr "#000aff"] = Normal c'
    /\ holds_integer (ColourRGB.r c') 0 /\ holds_integer (ColourRGB.g c') 10
    /\ holds_integer (ColourRGB.b c') 255 /\ ColourRGB.a c' = 1%float
    /\ ColourRGB.toString c' = "#000aff"
    /\ ((-0)%float <> (-0)%float -> 10%float <> (-0)%float ->
        255%float <> (-0)%float -> c' = ColourRGB.mk (-0) 10 255 1).
Proof.
  exact (hex_output_reconstructs (ColourRGB.mk (-0) 10 255 1) 0 10 255
           ltac:(lia) ltac:(lia) ltac:(lia) eq_refl eq_refl eq_refl eq_refl).
Defined.

(** X10: the hex form tells colours apart: two instances with alpha 1
    whose r, g, b hold integers of [0,255] and that print the same string
    hold the same integers, and their channels compare equal (only the
    sign of a zero can differ). *)
Theorem hex_output_injective (c c' : ColourRGB.t) (zr zg zb zr' zg' zb' : Z)
    (Rr : 0 <= zr <= 255) (Rg : 0 <= zg <= 255) (Rb : 0 <= zb <= 255)
    (Rr' : 0 <= zr' <= 255) (Rg' : 0 <= zg' <= 255) (Rb' : 0 <= zb' <= 255)
    (Hr : holds_integer (ColourRGB.r c) zr)
    (Hg : holds_integer (ColourRGB.g c) zg)
    (Hb : holds_integer (ColourRGB.b c) zb)
    (Hr' : holds_integer (ColourRGB.r c') zr')
    (Hg' : holds_integer (ColourRGB.g c') zg')
    (Hb' : holds_integer (ColourRGB.b c') zb')
    (Ha : (ColourRGB.a c =? 1)%float = true)
    (Ha' : (ColourRGB.a c' =? 1)%float = true)
    (Hsame : ColourRGB.toString c = ColourRGB.toString c') :
  (zr = zr' /\ zg = zg' /\ zb = zb')
  /\ (ColourRGB.r c =? ColourRGB.r c')%float = true
  /\ (ColourRGB.g c =? ColourRGB.g c')%float = true
  /\ (ColourRGB.b c =? ColourRGB.b c')%float = true.
Proof.
  rewrite (hex_form_of c zr zg zb), (hex_form_of c' zr' zg' zb') in Hsame
    by assumption.
  destruct (hex2_value zr Rr) as (x1 & y1 & E1 & V1).
  destruct (hex2_value zg Rg) as (x2 & y2 & E2 & V2).
  destruct (hex2_value zb Rb) as (x3 & y3 & E3 & V3).
  destruct (hex2_value zr' Rr') as (x1' & y1' & E1' & V1').
  destruct (hex2_value zg' Rg') as (x2' & y2' & E2' & V2').
  destruct (hex2_value zb' Rb') as (x3' & y3' & E3' & V3').
  rewrite E1, E2, E3, E1', E2', E3' in Hsame.
  injection Hsame as <- <- <- <- <- <-.
  assert (zr = zr' /\ zg = zg' /\ zb = zb') as (<- & <- & <-) by lia.
  split; [auto|].
  assert (forall x x' z, 0 <= z <= 255 -> holds_integer x z -> holds_integer x' z ->
                         (x =? x')%float = true) as Hcmp.
  { intros x x' z Rz Hx Hx'.
    destruct (holds_byte x z Rz Hx) as [Ex | [Ez Ex]];
      destruct (holds_byte x' z Rz Hx') as [Ex' | [Ez' Ex']];
      subst; try reflexivity; exact Hx. }
  repeat apply conj;
    [apply (Hcmp _ _ zr) | apply (Hcmp _ _ zg) | apply (Hcmp _ _ zb)];
    assumption.
Qed.

Lemma hex_output_injective_witness :
  (0 = 0 /\ 171 = 171 /\ 0 = 0)
  /\ ((-0) =? 0)%float = true /\ (171 =? 171)%float = true
  /\ (0 =? (-0))%float = true.
Proof.
  exact (hex_output_injective (ColourRGB.mk (-0) 171 0 1) (ColourRGB.mk 0 171 (-0) 1)
           0 171 0 0 171 0
           ltac:(lia) ltac:(lia) ltac:(lia) ltac:(lia) ltac:(lia) ltac:(lia)
           eq_refl eq_refl eq_refl eq_refl eq_refl eq_refl
           eq_refl eq_refl eq_refl).
Defined.

(** ** The parser, read backwards and up to spelling *)

Lemma hex_value_range (c : ascii) :
  is_hex_digit c = true -> 0 <= hex_value c <= 15.
Proof.
  intros H.
  pose proof (ascii_forall
    (fun c => if is_hex_digit c
              then (0 <=? hex_value c) && (hex_value c <=? 15) else true)
    eq_refl c) as Hc.
  cbv beta in Hc. rewrite H in Hc.
  apply andb_true_iff in Hc. destruct Hc as [Hlo Hhi].
  apply Z.leb_le in Hlo, Hhi. lia.
Qed.

Lemma lower_keeps_digit (c : ascii) :
  is_hex_digit c = true ->
  is_hex_digit (lower c) = true /\ hex_value (lower c) = hex_value c.
Proof.
  intros H.
  pose proof (ascii_forall
    (fun c => if is_hex_digit c
              then is_hex_digit (lower c) && (hex_value (lower c) =? hex_value c)
              else true)
    eq_refl c) as Hc.
  cbv beta in Hc. rewrite H in Hc.
  apply andb_true_iff in Hc. destruct Hc as [Hd Hv].
  apply Z.eqb_eq in Hv. now split.
Qed.

(** A string of the shape is parsed into three integers in [0,255]. *)
Lemma parsed_bytes (s : string) :
  hex_shape s = true ->
  exists zr zg zb,
    parseHexColour s = Normal (Hex.mk (Z2F zr) (Z2F zg) (Z2F zb) 1)
    /\ 0 <= zr <= 255 /\ 0 <= zg <= 255 /\ 0 <= zb <= 255.
Proof.
  intros Hshape.
  destruct (hex_shape_inv s Hshape)
    as [(c1 & c2 & c3 & -> & H1 & H2 & H3)
       | (c1 & c2 & c3 & c4 & c5 & c6 & -> & H1 & H2 & H3 & H4 & H5 & H6)].
  - rewrite (parseHexColour_3 c1 c2 c3 H1 H2 H3).
    destruct (hex_pair c1 c1 H1 H1) as (-> & _).
    destruct (hex_pair c2 c2 H2 H2) as (-> & _).
    destruct (hex_pair c3 c3 H3 H3) as (-> & _).
    pose proof (hex_value_range c1 H1). pose proof (hex_value_range c2 H2).
    pose proof (hex_value_range c3 H3).
    eexists _, _, _. repeat apply conj; try reflexivity; lia.
  - rewrite (parseHexColour_6 c1 c2 c3 c4 c5 c6 H1 H2 H3 H4 H5 H6).
    destruct (hex_pair c1 c2 H1 H2) as (-> & _).
    destruct (hex_pair c3 c4 H3 H4) as (-> & _).
    destruct (hex_pair c5 c6 H5 H6) as (-> & _).
    pose proof (hex_value_range c1 H1). pose proof (hex_value_range c2 H2).
    pose proof (hex_value_range c3 H3). pose proof (hex_value_range c4 H4).
    pose proof (hex_value_range c5 H5). pose proof (hex_value_range c6 H6).
    eexists _, _, _. repeat apply conj; try reflexivity; lia.
Qed.

(** X11: the parser returns only for strings of the shape [#rgb] or
    [#rrggbb], and what it returns is three integers in [0,255] with
    alpha 1; so the range check of the constructor cannot fail on the
    string path. *)
Theorem parseHexColour_sound (s : string) (hex : Hex.t)
    (Hparse : parseHexColour s = Normal hex) :
  hex_shape s = true
  /\ Hex.a hex = 1%float
  /\ exists zr zg zb,
       Hex.r hex = Z2F zr /\ Hex.g hex = Z2F zg /\ Hex.b hex = Z2F zb
       /\ 0 <= zr <= 255 /\ 0 <= zg <= 255 /\ 0 <= zb <= 255.
Proof.
  assert (hex_shape s = true) as Hshape.
  { destruct (hex_shape s) eqn:E; [reflexivity|].
    rewrite (parseHexColour_invalid s E) in Hparse. discriminate. }
  destruct (parsed_bytes s Hshape) as (zr & zg & zb & Hp & Rr & Rg & Rb).
  rewrite Hp in Hparse. injection Hparse as <-.
  split; [exact Hshape|]. split; [reflexivity|].
  exists zr, zg, zb. cbn [Hex.r Hex.g Hex.b].
  repeat apply conj; try reflexivity; lia.
Qed.

Lemma parseHexColour_sound_witness :
  hex_shape "#a1B2c3" = true
  /\ 1%float = 1%float
  /\ exists zr zg zb,
       161%float = Z2F zr /\ 178%float = Z2F zg /\ 195%float = Z2F zb
       /\ 0 <= zr <= 255 /\ 0 <= zg <= 255 /\ 0 <= zb <= 255.
Proof.
  exact (parseHexColour_sound "#a1B2c3" (Hex.mk 161 178 195 1) eq_refl).
Defined.

Lemma pair_lowered (c1 c2 : ascii) :
  is_hex_digit c1 = true -> is_hex_digit c2 = true ->
  parseInt (String (lower c1) (String (lower c2) "")) 16
  = parseInt (String c1 (String c2 "")) 16.
Proof.
  intros H1 H2.
  destruct (lower_keeps_digit c1 H1) as (L1 & V1).
  destruct (lower_keeps_digit c2 H2) as (L2 & V2).
  destruct (hex_pair c1 c2 H1 H2) as (-> & _).
  destruct (hex_pair (lower c1) (lower c2) L1 L2) as (-> & _).
  now rewrite V1, V2.
Qed.

Ltac by_hex P B1 B2 B3 :=
  eapply constructor_hex;
  [reflexivity | exact P | exact B1 | exact B2 | exact B3 | reflexivity].

(** X12: spelling does not matter: a string of the shape [#rgb] or
    [#rrggbb] gives the same parse result and the same instance as its
    canonical form, in which the shorthand is expanded by doubling each
    digit and letters are lowercase. *)
Theorem canonical_spelling_same_colour (s : string) (Hshape : hex_shape s = true) :
  hex_shape (canonical s) = true
  /\ parseHexColour s = parseHexColour (canonical s)
  /\ ColourRGB.constructor [VStr s] = ColourRGB.constructor [VStr (canonical s)].
Proof.
  destruct (hex_shape_inv s Hshape)
    as [(c1 & c2 & c3 & -> & H1 & H2 & H3)
       | (c1 & c2 & c3 & c4 & c5 & c6 & -> & H1 & H2 & H3 & H4 & H5 & H6)].
  - destruct (lower_keeps_digit c1 H1) as (L1 & _).
    destruct (lower_keeps_digit c2 H2) as (L2 & _).
    destruct (lower_keeps_digit c3 H3) as (L3 & _).
    unfold canonical. cbn [String.length Nat.eqb double_each lower_string].
    pose proof (parseHexColour_3 c1 c2 c3 H1 H2 H3) as P.
    pose proof (parseHexColour_6 _ _ _ _ _ _ L1 L1 L2 L2 L3 L3) as Q.
    rewrite !pair_lowered in Q by assumption.
    destruct (hex_pair c1 c1 H1 H1) as (_ & _ & B1).
    destruct (hex_pair c2 c2 H2 H2) as (_ & _ & B2).
    destruct (hex_pair c3 c3 H3 H3) as (_ & _ & B3).
    split; [| split].
    + unfold hex_shape. cbn [String.length all_chars]. now rewrite L1, L2, L3.
    + now rewrite P, Q.
    + etransitivity; [by_hex P B1 B2 B3 | symmetry; by_hex Q B1 B2 B3].
  - destruct (lower_keeps_digit c1 H1) as (L1 & _).
    destruct (lower_keeps_digit c2 H2) as (L2 & _).
    destruct (lower_keeps_digit c3 H3) as (L3 & _).
    destruct (lower_keeps_digit c4 H4) as (L4 & _).
    destruct (lower_keeps_digit c5 H5) as (L5 & _).
    destruct (lower_keeps_digit c6 H6) as (L6 & _).
    unfold canonical. cbn [String.length Nat.eqb double_each lower_string].
    pose proof (parseHexColour_6 c1 c2 c3 c4 c5 c6 H1 H2 H3 H4 H5 H6) as P.
    pose proof (parseHexColour_6 _ _ _ _ _ _ L1 L2 L3 L4 L5 L6) as Q.
    rewrite !pair_lowered in Q by assumption.
    destruct (hex_pair c1 c2 H1 H2) as (_ & _ & B1).
    destruct (hex_pair c3 c4 H3 H4) as (_ & _ & B2).
    destruct (hex_pair c5 c6 H5 H6) as (_ & _ & B3).
    split; [| split].
    + unfold hex_shape. cbn [String.length all_chars].
      now rewrite L1, L2, L3, L4, L5, L6.
    + now rewrite P, Q.
    + etransitivity; [by_hex P B1 B2 B3 | symmetry; by_hex Q B1 B2 B3].
Qed.

Lemma canonical_spelling_same_colour_witness :
  ColourRGB.constructor [VStr "#FaB"] = ColourRGB.constructor [VStr "#ffaabb"].
Proof.
  exact (proj2 (proj2 (canonical_spelling_same_colour "#FaB" eq_refl))).
Defined.

(** ** Hex string, then [alpha] *)

Lemma charAt_hash (s : string) : hex_shape s = true -> charAt s 0 = "#".
Proof.
  destruct s as [|h d]; [discriminate|]. unfold hex_shape.
  rewrite !andb_true_iff. intros [[Hh _] _]. apply Ascii.eqb_eq in Hh. now subst h.
Qed.

(** X13: the use shown in the file's header, for every input: a colour
    built from a string of the shape [#rgb] or [#rrggbb] prints in hex
    form, and its [alpha(a)], for a truthy [a] in range other than 1,
    prints as [rgba(r, g, b, a)] with the same three channel values in
    decimal; [#f00] with 0.5 gives [#ff0000] and [rgba(255, 0, 0, 0.5)]. *)
Theorem hex_colour_with_alpha (s : string) (a : float)
    (Hshape : hex_shape s = true)
    (Ha : isBadNum (VNum a) 1 = false) (Ht : ToBoolean (VNum a) = true)
    (Hne : (a =? 1)%float = false) :
  exists zr zg zb c c',
    0 <= zr <= 255 /\ 0 <= zg <= 255 /\ 0 <= zb <= 255
    /\ ColourRGB.constructor [VStr s] = Normal c
    /\ ColourRGB.toString c = "#" ++ hex2 zr ++ hex2 zg ++ hex2 zb
    /\ ColourRGB.alpha c (VNum a) = Normal c'
    /\ ColourRGB.toString c'
       = "rgba(" ++ decimal zr ++ ", " ++ decimal zg ++ ", " ++ decimal zb
         ++ ", " ++ Number_toString a 10 ++ ")".
Proof.
  destruct (parsed_bytes s Hshape) as (zr & zg & zb & Hp & Rr & Rg & Rb).
  destruct (byte_hex_parses zr Rr) as (_ & _ & _ & _ & _ & _ & Br).
  destruct (byte_hex_parses zg Rg) as (_ & _ & _ & _ & _ & _ & Bg).
  destruct (byte_hex_parses zb Rb) as (_ & _ & _ & _ & _ & _ & Bb).
  destruct (byte_prints zr Rr) as (Pr & Dr & _).
  destruct (byte_prints zg Rg) as (Pg & Dg & _).
  destruct (byte_prints zb Rb) as (Pb & Db & _).
  exists zr, zg, zb, (ColourRGB.mk (Z2F zr) (Z2F zg) (Z2F zb) 1),
         (ColourRGB.mk (Z2F zr) (Z2F zg) (Z2F zb) a).
  repeat apply conj; try assumption; try lia.
  - apply (constructor_hex s (Hex.mk (Z2F zr) (Z2F zg) (Z2F zb) 1));
      [now apply charAt_hash | exact Hp | exact Br | exact Bg | exact Bb
       | reflexivity].
  - unfold ColourRGB.toString.
    cbn [ColourRGB.a ColourRGB.r ColourRGB.g ColourRGB.b].
    change (1 =? 1)%float with true. cbv iota. now rewrite Pr, Pg, Pb.
  - unfold ColourRGB.alpha. cbn [ColourRGB.r ColourRGB.g ColourRGB.b].
    rewrite constructor_4. unfold or_else. now rewrite Ht, Br, Bg, Bb, Ha.
  - unfold ColourRGB.toString, ToString.
    cbn [ColourRGB.a ColourRGB.r ColourRGB.g ColourRGB.b].
    now rewrite Hne, Dr, Dg, Db.
Qed.

Lemma hex_colour_with_alpha_witness :
  exists zr zg zb c c',
    0 <= zr <= 255 /\ 0 <= zg <= 255 /\ 0 <= zb <= 255
    /\ ColourRGB.constructor [VStr "#f00"] = Normal c
    /\ ColourRGB.toString c = "#" ++ hex2 zr ++ hex2 zg ++ hex2 zb
    /\ ColourRGB.alpha c (VNum 0.5) = Normal c'
    /\ ColourRGB.toString c'
       = "rgba(" ++ decimal zr ++ ", " ++ decimal zg ++ ", " ++ decimal zb
         ++ ", " ++ "0.5" ++ ")".
Proof. exact (hex_colour_with_alpha "#f00" 0.5 eq_refl eq_refl eq_refl eq_refl). Defined.

(** X14: the rgba form is output only: for every instance whose alpha is
    not 1, the string [toString()] returns is refused by the constructor
    with the invalid-arguments error. *)
Theorem rgba_output_not_accepted (c : ColourRGB.t)
    (Hne : (ColourRGB.a c =? 1)%float = false) :
  fails_with InvalidColourArguments
    (ColourRGB.constructor [VStr (ColourRGB.toString c)]).
Proof.
  rewrite constructor_other_shape.
  - eexists. split; [reflexivity | apply error_kind_rgb].
  - intros s [= <-]. unfold ColourRGB.toString. rewrite Hne.
    match goal with |- charAt (_ ++ ?x) 0 <> _ => generalize x end.
    intros x Heq. discriminate Heq.
  - discriminate.
  - discriminate.
Qed.

Lemma rgba_output_not_accepted_witness :
  fails_with InvalidColourArguments
    (ColourRGB.constructor [VStr "rgba(255, 0, 0, 0.5)"]).
Proof. exact (rgba_output_not_accepted (ColourRGB.mk 255 0 0 0.5) eq_refl). Defined.

(** ** Arguments of ColourHSL *)

(** A call of the ColourHSL constructor that fails the validation gives
    no instance, and throws the invalid-arguments error when its
    arguments can be printed. *)
Lemma hsl_refused (args : list value) :
  isBadNum (nth 0 args VUndefined) 360 || isBadNum (nth 1 args VUndefined) 100
  || isBadNum (nth 2 args VUndefined) 100
  || isBadNum match nth 3 args VUndefined with VUndefined => VNum 1 | v => v end 1
  = true ->
  (forall c, ColourHSL.constructor args <> Normal c)
  /\ (forallb printable args = true ->
        fails_with InvalidColourArguments (ColourHSL.constructor args)).
Proof.
  intros Hbad. unfold ColourHSL.constructor. rewrite Hbad.
  match goal with
  | |- context [join ", " ?l] =>
      destruct (rejected_outcome (A := ColourHSL.t)
                  "Invalid ColourHSL arguments: " l) as (Hno & Hmsg & _);
      fold (@rejected ColourHSL.t "Invalid ColourHSL arguments: " l)
  end.
  split; [exact Hno|]. intros Hp.
  destruct Hmsg as (m & _ & ->).
  - cbn [forallb]. rewrite !printable_nth by assumption.
    pose proof (printable_nth args 3 Hp) as H3.
    destruct (nth 3 args VUndefined); now rewrite ?H3.
  - eexists. split; [reflexivity | apply error_kind_hsl].
Qed.

(** X15: ColourHSL needs three numbers: when one of the first three
    arguments is missing or is not of type number, and so on every call
    with fewer than three arguments, the constructor gives no instance;
    it throws the invalid-arguments error when the arguments can be
    printed into the message. *)
Theorem hsl_needs_three_numbers (args : list value) :
  (forall i, (i < 3)%nat -> typeof (nth i args VUndefined) <> "number" ->
     (forall c, ColourHSL.constructor args <> Normal c)
     /\ (forallb printable args = true ->
           fails_with InvalidColourArguments (ColourHSL.constructor args)))
  /\ ((List.length args < 3)%nat ->
        (forall c, ColourHSL.constructor args <> Normal c)
        /\ (forallb printable args = true ->
              fails_with InvalidColourArguments (ColourHSL.constructor args))).
Proof.
  assert (forall i, (i < 3)%nat -> typeof (nth i args VUndefined) <> "number" ->
            (forall c, ColourHSL.constructor args <> Normal c)
            /\ (forallb printable args = true ->
                  fails_with InvalidColourArguments (ColourHSL.constructor args)))
    as H.
  { intros i Hi Hty. apply hsl_refused.
    destruct i as [|[|[|i]]]; [| | | lia];
      rewrite (isBadNum_not_number _ _ Hty);
      now rewrite ?orb_true_r, ?orb_true_l. }
  split; [exact H|]. intros Hlen. apply (H 2%nat); [lia|].
  rewrite nth_overflow by lia. discriminate.
Qed.

Lemma hsl_needs_three_numbers_witness :
  fails_with InvalidColourArguments (ColourHSL.constructor [VNum 120; VNum 50])
  /\ fails_with InvalidColourArguments
       (ColourHSL.constructor [VNum 120; VStr "50"; VNum 25])
  /\ (forall c, ColourHSL.constructor [VSymbol; VNum 50; VNum 25] <> Normal c).
Proof.
  split; [| split].
  - apply (proj2 (hsl_needs_three_numbers [VNum 120; VNum 50])).
    + cbn. lia.
    + reflexivity.
  - apply (proj1 (hsl_needs_three_numbers [VNum 120; VStr "50"; VNum 25]) 1%nat).
    + lia.
    + discriminate.
    + reflexivity.
  - apply (proj1 (hsl_needs_three_numbers [VSymbol; VNum 50; VNum 25]) 0%nat).
    + lia.
    + discriminate.
Defined.

(** X16: the alpha default of ColourHSL covers undefined alone: with any
    other fourth argument that is not of type number (null, a boolean, a
    string) the constructor gives no instance; it throws the
    invalid-arguments error when the arguments can be printed into the
    message. *)
Theorem hsl_alpha_not_defaulted (h s l a : value)
    (Hdef : a <> VUndefined) (Hty : typeof a <> "number") :
  (forall c, ColourHSL.constructor [h; s; l; a] <> Normal c)
  /\ (forallb printable [h; s; l; a] = true ->
        fails_with InvalidColourArguments (ColourHSL.constructor [h; s; l; a])).
Proof.
  destruct a as [| | | | | | | [] conv];
    try (now contradiction Hdef); try (now contradiction Hty);
    apply hsl_refused; apply orb_true_iff; right; reflexivity.
Qed.

Lemma hsl_alpha_not_defaulted_witness :
  fails_with InvalidColourArguments
    (ColourHSL.constructor [VNum 0; VNum 100; VNum 50; VNull]).
Proof.
  apply (hsl_alpha_not_defaulted (VNum 0) (VNum 100) (VNum 50) VNull);
    [discriminate | discriminate | reflexivity].
Defined.

(** ** Printing of ColourHSL *)

Lemma degree_prints (z : Z) :
  0 <= z <= 360 -> Number_toString (Z2F z) 10 = decimal z.
Proof.
  intros H.
  assert (In z (map Z.of_nat (seq 0 361))) as Hin.
  { rewrite <- (Z2Nat.id z) by lia. apply in_map, in_seq. lia. }
  assert (forallb (fun z => String.eqb (Number_toString (Z2F z) 10) (decimal z))
                  (map Z.of_nat (seq 0 361)) = true) as Hall
    by (vm_compute; reflexivity).
  rewrite forallb_forall in Hall. now apply String.eqb_eq, Hall.
Qed.

(** X17: for an instance whose h, s, l are integers in range, the output
    of [toString()] shows them as plain decimal numerals: [hsl(h, s%, l%)]
    when alpha is 1, and [hsla(h, s%, l%, a)] otherwise. *)
Theorem hsl_toString_integers (c : ColourHSL.t) (zh zs zl : Z)
    (Hh : ColourHSL.h c = Z2F zh) (Hs : ColourHSL.s c = Z2F zs)
    (Hl : ColourHSL.l c = Z2F zl)
    (Rh : 0 <= zh <= 360) (Rs : 0 <= zs <= 100) (Rl : 0 <= zl <= 100) :
  ColourHSL.toString c
  = if (ColourHSL.a c =? 1)%float
    then "hsl(" ++ decimal zh ++ ", " ++ decimal zs ++ "%, " ++ decimal zl ++ "%)"
    else "hsla(" ++ decimal zh ++ ", " ++ decimal zs ++ "%, " ++ decimal zl
         ++ "%, " ++ Number_toString (ColourHSL.a c) 10 ++ ")".
Proof.
  unfold ColourHSL.toString, ToString. rewrite Hh, Hs, Hl.
  rewrite !degree_prints by lia. reflexivity.
Qed.

Lemma hsl_toString_integers_witness :
  ColourHSL.toString (ColourHSL.mk 360 100 7 0.25) = "hsla(360, 100%, 7%, 0.25)".
Proof.
  exact (hsl_toString_integers (ColourHSL.mk 360 100 7 0.25) 360 100 7
           eq_refl eq_refl eq_refl ltac:(lia) ltac:(lia) ltac:(lia)).
Defined.

(** * Mutation *)

Lemma new_instance_frame {A} (wrap : A -> object) (init : completion A)
    (σ σ' : gmap loc object) (res : completion loc) :
  new_instance wrap init σ = (res, σ') ->
  (forall l o, σ !! l = Some o -> σ' !! l = Some o)
  /\ (forall l', res = Normal l' ->
        σ !! l' = None
        /\ exists x, init = Normal x /\ σ' !! l' = Some (wrap x))
  /\ (forall x, init = Normal x -> exists l', res = Normal l')
  /\ ((forall l', res <> Normal l') -> σ' = σ).
Proof.
  unfold new_instance. destruct init as [x | msg | |]; intros [= <- <-].
  - pose proof (is_fresh (dom σ)) as Hfresh.
    apply not_elem_of_dom in Hfresh.
    repeat apply conj.
    + intros l o Hl. rewrite lookup_insert_ne; [exact Hl|].
      intros <-. rewrite Hfresh in Hl. discriminate.
    + intros l' [= <-]. split; [exact Hfresh|].
      exists x. split; [reflexivity|]. apply lookup_insert_eq.
    + intros x' _. eauto.
    + intros Hno. now contradiction (Hno (fresh (dom σ))).
  - repeat apply conj; try tauto; try discriminate.
  - repeat apply conj; try tauto; try discriminate.
  - repeat apply conj; try tauto; try discriminate.
Qed.

(** [alpha] returns exactly when the receiver's channels and the alpha to
    apply pass the rule, and then with the receiver's channels. *)
Lemma rgb_alpha_returns (c : ColourRGB.t) (v : value) :
  (alpha_accepted (RGB c) v ->
     ColourRGB.alpha c v
     = Normal (ColourRGB.mk (ColourRGB.r c) (ColourRGB.g c) (ColourRGB.b c)
                            (num_of (or_else v (VNum 1)))))
  /\ (forall c', ColourRGB.alpha c v = Normal c' -> alpha_accepted (RGB c) v).
Proof.
  unfold ColourRGB.alpha, alpha_accepted, effective_alpha. rewrite constructor_4.
  cbn [num_of]. split.
  - intros ((-> & -> & ->) & ->). reflexivity.
  - intros c'. destruct (_ || _) eqn:Hbad; [now intros H%message_not_normal|].
    intros _. split_bad Hbad Hr Hg Hb Ha. auto.
Qed.

Lemma hsl_alpha_returns (c : ColourHSL.t) (v : value) :
  (alpha_accepted (HSL c) v ->
     ColourHSL.alpha c v
     = Normal (ColourHSL.mk (ColourHSL.h c) (ColourHSL.s c) (ColourHSL.l c)
                            (num_of (effective_alpha (HSL c) v))))
  /\ (forall c', ColourHSL.alpha c v = Normal c' -> alpha_accepted (HSL c) v).
Proof.
  unfold ColourHSL.alpha, ColourHSL.constructor, alpha_accepted, effective_alpha.
  destruct v; cbn [nth num_of];
    (split;
     [ intros ((-> & -> & ->) & ->); reflexivity
     | intros c'; destruct (_ || _) eqn:Hbad; [now intros H%message_not_normal|];
       intros _; split_bad Hbad Hr Hg Hb Ha; auto ]).
Qed.

(** A receiver that [new] has just returned holds valid channels. *)
Lemma constructed_receiver (args : list value) (σ0 σ : gmap loc object)
    (this : loc) (o : object) :
  new_ColourRGB args σ0 = (Normal this, σ)
  \/ new_ColourHSL args σ0 = (Normal this, σ) ->
  σ !! this = Some o ->
  forall newAlpha,
    isBadNum (effective_alpha o newAlpha) 1 = false -> alpha_accepted o newAlpha.
Proof.
  unfold new_ColourRGB, new_ColourHSL, new_instance.
  intros [H | H] Hthis newAlpha Ha.
  - destruct (ColourRGB.constructor args) as [c | | |] eqn:Hnew; try discriminate H.
    injection H as <- <-. rewrite lookup_insert_eq in Hthis. injection Hthis as <-.
    destruct (rgb_constructor_inv args c Hnew)
      as (r & g & b & a & Hr & Hg & Hb & _ & _ & ->).
    split; [| exact Ha]. cbn [ColourRGB.r ColourRGB.g ColourRGB.b].
    rewrite <- (not_bad_is_num r 255 Hr), <- (not_bad_is_num g 255 Hg),
            <- (not_bad_is_num b 255 Hb). auto.
  - destruct (ColourHSL.constructor args) as [c | | |] eqn:Hnew; try discriminate H.
    injection H as <- <-. rewrite lookup_insert_eq in Hthis. injection Hthis as <-.
    destruct (hsl_constructor_inv args c Hnew)
      as (h & s & l & a & Hh & Hs & Hl & _ & ->).
    split; [| exact Ha]. cbn [ColourHSL.h ColourHSL.s ColourHSL.l].
    rewrite <- (not_bad_is_num h 360 Hh), <- (not_bad_is_num s 100 Hs),
            <- (not_bad_is_num l 100 Hl). auto.
Qed.

(** C9: for both classes [alpha(newAlpha)] leaves the receiver, and every
    other object of the store, as it was, and the receiver prints after
    the call as it did before.  The call returns exactly when the
    receiver's channels and the alpha to apply pass the validation, as
    they do for a receiver that [new] returned and a valid alpha; what it
    returns is a new object that holds the receiver's colour channels and
    that alpha. *)
Theorem alpha_does_not_mutate (σ : gmap loc object) (this : loc) (o : object)
    (newAlpha : value) (Hthis : σ !! this = Some o) :
  exists res σ',
    call_alpha this newAlpha σ = Some (res, σ')
    /\ σ' !! this = Some o
    /\ (forall l o', σ !! l = Some o' -> σ' !! l = Some o')
    /\ call_toString this σ' = call_toString this σ
    /\ (forall l', res = Normal l' ->
          σ !! l' = None /\ l' <> this
          /\ exists o', σ' !! l' = Some o' /\ channels o' = channels o)
    /\ ((forall l', res <> Normal l') -> σ' = σ)
    /\ (alpha_accepted o newAlpha <-> exists l', res = Normal l')
    /\ (forall l', res = Normal l' ->
          σ' !! l' = Some (with_alpha o (num_of (effective_alpha o newAlpha))))
    /\ (forall args σ0,
          new_ColourRGB args σ0 = (Normal this, σ)
          \/ new_ColourHSL args σ0 = (Normal this, σ) ->
          isBadNum (effective_alpha o newAlpha) 1 = false ->
          exists l', res = Normal l').
Proof.
  assert (forall res, (alpha_accepted o newAlpha <-> exists l' : loc, res = Normal l') ->
          forall args σ0,
            new_ColourRGB args σ0 = (Normal this, σ)
            \/ new_ColourHSL args σ0 = (Normal this, σ) ->
            isBadNum (effective_alpha o newAlpha) 1 = false ->
            exists l' : loc, res = Normal l') as Hbuilt.
  { intros res Hiff args σ0 Hnew Ha. apply Hiff.
    exact (constructed_receiver args σ0 σ this o Hnew Hthis newAlpha Ha). }
  unfold call_alpha. rewrite Hthis.
  destruct o as [c | c].
  - destruct (new_instance RGB (ColourRGB.alpha c newAlpha) σ) as [res σ'] eqn:E.
    destruct (new_instance_frame _ _ _ _ _ E) as (Hframe & Hnew & Hret & Hthrow).
    destruct (rgb_alpha_returns c newAlpha) as (Hacc & Hconv).
    assert (alpha_accepted (RGB c) newAlpha <-> exists l', res = Normal l') as Hiff.
    { split.
      - intros H. exact (Hret _ (Hacc H)).
      - intros [l' Hres]. destruct (Hnew l' Hres) as (_ & c' & Halpha & _).
        exact (Hconv c' Halpha). }
    exists res, σ'. split; [reflexivity|].
    split; [now apply Hframe|]. split; [exact Hframe|].
    split; [unfold call_toString; now rewrite Hthis, (Hframe _ _ Hthis)|].
    split; [| split; [exact Hthrow | split; [exact Hiff | split; [| exact (Hbuilt res Hiff)]]]].
    + intros l' Hres. destruct (Hnew l' Hres) as (Hnone & c' & Halpha & Hl').
      split; [exact Hnone|]. split; [intros ->; congruence|].
      exists (RGB c'). split; [exact Hl'|].
      destruct (rgb_alpha_channels _ _ _ Halpha) as (E1 & E2 & E3).
      unfold channels. now rewrite E1, E2, E3.
    + intros l' Hres. destruct (Hnew l' Hres) as (_ & c' & Halpha & Hl').
      rewrite Hl'. rewrite (Hacc (Hconv c' Halpha)) in Halpha.
      injection Halpha as <-. reflexivity.
  - destruct (new_instance HSL (ColourHSL.alpha c newAlpha) σ) as [res σ'] eqn:E.
    destruct (new_instance_frame _ _ _ _ _ E) as (Hframe & Hnew & Hret & Hthrow).
    destruct (hsl_alpha_returns c newAlpha) as (Hacc & Hconv).
    assert (alpha_accepted (HSL c) newAlpha <-> exists l', res = Normal l') as Hiff.
    { split.
      - intros H. exact (Hret _ (Hacc H)).
      - intros [l' Hres]. destruct (Hnew l' Hres) as (_ & c' & Halpha & _).
        exact (Hconv c' Halpha). }
    exists res, σ'. split; [reflexivity|].
    split; [now apply Hframe|]. split; [exact Hframe|].
    split; [unfold call_toString; now rewrite Hthis, (Hframe _ _ Hthis)|].
    split; [| split; [exact Hthrow | split; [exact Hiff | split; [| exact (Hbuilt res Hiff)]]]].
    + intros l' Hres. destruct (Hnew l' Hres) as (Hnone & c' & Halpha & Hl').
      split; [exact Hnone|]. split; [intros ->; congruence|].
      exists (HSL c'). split; [exact Hl'|].
      destruct (hsl_alpha_channels _ _ _ Halpha) as (E1 & E2 & E3).
      unfold channels. now rewrite E1, E2, E3.
    + intros l' Hres. destruct (Hnew l' Hres) as (_ & c' & Halpha & Hl').
      rewrite Hl'. rewrite (Hacc (Hconv c' Halpha)) in Halpha.
      injection Halpha as <-. reflexivity.
Qed.

Lemma alpha_does_not_mutate_witness :
  let σ : gmap loc object := {[ 1%positive := RGB (ColourRGB.mk 255 0 0 1) ]} in
  exists res σ',
    call_alpha 1%positive (VNum 0.5) σ = Some (res, σ')
    /\ σ' !! 1%positive = Some (RGB (ColourRGB.mk 255 0 0 1))
    /\ call_toString 1%positive σ' = Some "#ff0000"
    /\ exists l', res = Normal l' /\ l' <> 1%positive
                  /\ σ' !! l' = Some (RGB (ColourRGB.mk 255 0 0 0.5)).
Proof.
  intros σ.
  destruct (alpha_does_not_mutate σ 1%positive (RGB (ColourRGB.mk 255 0 0 1))
              (VNum 0.5) eq_refl)
    as (res & σ' & Hcall & Hsame & _ & Hprint & Hnew & _ & Hiff & Hobj & _).
  exists res, σ'. split; [exact Hcall|]. split; [exact Hsame|].
  split; [exact Hprint|].
  destruct (proj1 Hiff) as [l' Hres].
  { repeat split. }
  exists l'. split; [exact Hres|].
  split; [exact (proj1 (proj2 (Hnew l' Hres))) | exact (Hobj l' Hres)].
Defined.
